(** * Power analysis calculator: two shallow embeddings and their properties

    Source: [data-analysis/power_analysis_calculator.py], class
    [PowerAnalysisCalculator].

    Numbers.  Python [int] is [Z].  Python [float] and numpy's [float64] are
    embedded twice.

    - [Binary64] embeds the arithmetic methods ([__init__],
      [calculate_sample_size], [calculate_power_analysis]) on IEEE 754
      binary64 numbers, the [spec_float] of the standard library with 53 bits
      of precision: every operation rounds to nearest, ties to even, as the
      processor does; infinities, NaN, signed zeros, overflow and underflow
      are there, and so are the exceptions that Python raises on them.  The
      statements that depend on the last bits of a quotient, or on the values
      that are not finite, are made on this embedding.

    - The top-level definitions embed the whole class on exact rationals [Q]:
      every operation of the source is kept, in the source's order, but
      carried out without rounding error.  Of the values that are not finite
      this embedding has the two places where a zero divisor produces them.
      It carries the frame, the recommendation selector and the presentation
      methods, and the statements on the order and on the structure of the
      results, which hold for a sweep that returns.

    Effects.  A method that can raise returns a [Result]; a method that
    assigns to [self] returns the updated object next to its value; a method
    that writes a file takes the answer of the file system as a parameter. *)

From Stdlib Require Import ZArith QArith Qround Qabs List Sorted Bool Lia Lqa.
From Stdlib Require Import SpecFloat.
From Stdlib Require String.
Import ListNotations.

Open Scope Q_scope.

(** ** Exceptions and the error monad *)

Inductive PyError : Set :=
| ZeroDivisionError   (* Python true division by zero *)
| OverflowError       (* int(inf), a float power or an int division too large *)
| ValueError          (* int(nan) *)
| KeyError            (* column lookup on a frame that has no such column *)
| IndexError          (* positional lookup out of bounds *)
| OSError.            (* a file that cannot be written *)

Inductive Result (A : Type) : Type :=
| Ok (a : A)
| Raise (e : PyError).

Arguments Ok {A} a.
Arguments Raise {A} e.

Definition bind {A B : Type} (c : Result A) (k : A -> Result B) : Result B :=
  match c with
  | Ok a => k a
  | Raise e => Raise e
  end.

Notation "x <- c ;; k" := (bind c (fun x => k))
  (at level 61, c at next level, right associativity).

(** ** Numeric primitives, on the rationals *)

Module Num.

(** Python's [a / b] on numbers. *)
Definition truediv (a b : Q) : Result Q :=
  if Qeq_bool b 0 then Raise ZeroDivisionError else Ok (a / b).

(** A numpy [float64]: a finite value, an infinity or a NaN. *)
Inductive float64 : Set :=
| Finite (q : Q)
| PosInf
| NegInf
| NaN.

(** numpy's [a / b] with a finite [float64] on the left: no exception, the
    quotient by zero is [inf], [-inf] or [nan]. *)
Definition np_divide (a b : Q) : float64 :=
  if Qeq_bool b 0 then
    match a ?= 0 with
    | Eq => NaN
    | Gt => PosInf
    | Lt => NegInf
    end
  else Finite (a / b).

(** [np.ceil]. *)
Definition np_ceil (x : float64) : float64 :=
  match x with
  | Finite q => Finite (inject_Z (Qceiling q))
  | other => other
  end.

(** [int(x)]: truncation toward zero; refuses the non-finite values. *)
Definition int (x : float64) : Result Z :=
  match x with
  | Finite q => Ok (if Qle_bool 0 q then Qfloor q else Qceiling q)
  | PosInf | NegInf => Raise OverflowError
  | NaN => Raise ValueError
  end.

(** Round half to even, to an integer. *)
Definition round_half_even (x : Q) : Z :=
  let f := Qfloor x in
  match ((x - inject_Z f) ?= (1 # 2))%Q with
  | Lt => f
  | Gt => (f + 1)%Z
  | Eq => if Z.even f then f else (f + 1)%Z
  end.

(** Python's [round(x, ndigits)] of an exact value: half to even, in decimal
    ([Binary64.round] is [round] on a double). *)
Definition round (x : Q) (ndigits : nat) : Q :=
  let scale := inject_Z (10 ^ Z.of_nat ndigits) in
  inject_Z (round_half_even (x * scale)) / scale.

(** [list(range(lo, hi))]. *)
Definition range (lo hi : Z) : list Z :=
  map (fun i => (lo + Z.of_nat i)%Z) (seq 0 (Z.to_nat (hi - lo))).

End Num.

(** ** Data *)

(** The strings stored under ['Feasibility']. *)
Inductive feasibility_label : Set :=
| VeryShort   (* "Very Short" *)
| Short       (* "Short" *)
| Moderate    (* "Moderate" *)
| Long.       (* "Long" *)

(** The strings stored under ['Traffic_Assessment']. *)
Inductive traffic_label : Set :=
| Excellent             (* "Excellent" *)
| Good                  (* "Good" *)
| Challenging           (* "Challenging" *)
| InsufficientTraffic.  (* "Insufficient Traffic" *)

(** One dictionary appended to [results]: a row of the frame. *)
Record Row : Set := mkRow {
  MDE_Percent : Z;
  MDE_Decimal : Q;
  Sample_Size_Per_Variant : Z;
  Total_Sample_Size : Z;
  Population_Split_Percent : Q;
  Duration_Days : Q;
  Duration_Weeks : Q;
  Feasibility : feasibility_label;
  Traffic_Assessment : traffic_label
}.

(** A pandas frame, as far as the calculator uses one: its rows in order, and
    whether it has the nine columns.  [pd.DataFrame(results)] takes the
    columns from the dictionaries, so the frame built from an empty list has
    none; a boolean-mask selection keeps the columns of the frame it filters. *)
Record DataFrame : Set := mkFrame {
  has_columns : bool;
  rows : list Row
}.

Module pd.

(** [df[cond(df[col], ...)]]: the column lookups raise [KeyError] on a frame
    without columns; otherwise the rows satisfying the mask, in order. *)
Definition select (df : DataFrame) (mask : Row -> bool) : Result DataFrame :=
  if has_columns df then Ok (mkFrame true (filter mask (rows df)))
  else Raise KeyError.

(** [df.empty] *)
Definition empty (df : DataFrame) : bool :=
  match rows df with
  | [] => true
  | _ :: _ => false
  end.

(** [len(df)] *)
Definition len (df : DataFrame) : Z := Z.of_nat (length (rows df)).

(** [df.iloc[i]]: a negative [i] counts from the end. *)
Definition iloc (df : DataFrame) (i : Z) : Result Row :=
  let n := len df in
  let j := (if i <? 0 then n + i else i)%Z in
  if ((0 <=? j) && (j <? n))%Z%bool then
    match nth_error (rows df) (Z.to_nat j) with
    | Some r => Ok r
    | None => Raise IndexError
    end
  else Raise IndexError.

(** [df[col]] read as a sequence: the values of one column, in row order. *)
Definition column {A : Type} (df : DataFrame) (field : Row -> A)
  : Result (list A) :=
  if has_columns df then Ok (map field (rows df)) else Raise KeyError.

(** [df.copy()] *)
Definition copy (df : DataFrame) : DataFrame := df.

(** [df.head(n)], that is [df.iloc[:n]]: the first [n] rows, and for a
    negative [n] all rows but the last [-n]. *)
Definition head (df : DataFrame) (n : Z) : DataFrame :=
  mkFrame (has_columns df)
          (if (0 <=? n)%Z then firstn (Z.to_nat n) (rows df)
           else firstn (Z.to_nat (len df + n)) (rows df)).

(** [pd.DataFrame(results)] *)
Definition DataFrame (results : list Row) : DataFrame :=
  match results with
  | [] => mkFrame false []
  | _ :: _ => mkFrame true results
  end.

End pd.

(** The calculator object.  [results_df] is the attribute assigned by
    [calculate_power_analysis]; [None] stands for "not yet set"
    ([hasattr(self, 'results_df')] is false). *)
Record PowerAnalysisCalculator : Set := mkCalc {
  baseline_rate : Q;
  monthly_population : Z;
  num_variants : Z;
  power : Q;
  alpha : Q;
  z_alpha_2 : Q;
  z_beta : Q;
  results_df : option DataFrame
}.

Definition set_results_df (self : PowerAnalysisCalculator) (df : DataFrame)
  : PowerAnalysisCalculator :=
  mkCalc (baseline_rate self) (monthly_population self) (num_variants self)
         (power self) (alpha self) (z_alpha_2 self) (z_beta self) (Some df).

(** One entry of the dictionary returned by [get_recommendations]. *)
Record Recommendation : Set := mkRec {
  mde : Z;
  duration : Q;
  sample_size : Z
}.

Record Recommendations : Set := mkRecs {
  quick_test : option Recommendation;
  standard_test : option Recommendation;
  sensitive_test : option Recommendation
}.

(** ** Methods *)

(** [__init__].  The standard normal quantile [stats.norm.ppf] belongs to
    scipy, not to this program: it is the parameter [ppf].  It never raises,
    and the constructor has no [raise] of its own.  Here [ppf] answers with
    a rational; the infinities and the NaN that scipy answers with at the
    ends of [0,1] and outside are in [Binary64.__init__]. *)
Definition __init__ (ppf : Q -> Q)
  (baseline_rate : Q) (monthly_population num_variants : Z) (power alpha : Q)
  : Result PowerAnalysisCalculator :=
  let z_alpha_2 := ppf (1 - alpha / 2) in
  let z_beta := ppf power in
  Ok (mkCalc baseline_rate monthly_population num_variants power alpha
             z_alpha_2 z_beta None).

(** [calculate_sample_size], in exact arithmetic: the quotient is the real
    one, and it fails to be finite only on a zero denominator.  The rounding
    of every operation and the overflows are in
    [Binary64.calculate_sample_size]. *)
Definition calculate_sample_size (self : PowerAnalysisCalculator) (mde : Q)
  : Result Z :=
  let p := baseline_rate self in
  let numerator := 2 * (z_alpha_2 self + z_beta self) ^ 2 * p * (1 - p) in
  let denominator := mde ^ 2 in
  Num.int (Num.np_ceil (Num.np_divide numerator denominator)).

(** The two [if]/[elif] chains of the loop body. *)
Definition classify_feasibility (duration_days : Q) : feasibility_label :=
  if Qle_bool duration_days 7 then VeryShort
  else if Qle_bool duration_days 14 then Short
  else if Qle_bool duration_days 30 then Moderate
  else Long.

Definition classify_traffic (population_split_percent : Q) : traffic_label :=
  if Qle_bool population_split_percent 25 then Excellent
  else if Qle_bool population_split_percent 50 then Good
  else if Qle_bool population_split_percent 75 then Challenging
  else InsufficientTraffic.

(** The body of the [for] loop of [calculate_power_analysis]: the dictionary
    built for one [mde_percent], in exact arithmetic ([Binary64.sweep_row]
    has the loop body on doubles). *)
Definition sweep_row (self : PowerAnalysisCalculator) (mde_percent : Z)
  : Result Row :=
  let mde_decimal := inject_Z mde_percent / 100 in
  sample_size_per_variant <- calculate_sample_size self mde_decimal ;;
  let total_sample_size := (sample_size_per_variant * num_variants self)%Z in
  share <- Num.truediv (inject_Z total_sample_size)
                       (inject_Z (monthly_population self)) ;;
  let population_split_percent := share * 100 in
  let daily_population := inject_Z (monthly_population self) / 30 in
  duration_days <- Num.truediv (inject_Z total_sample_size) daily_population ;;
  let duration_weeks := duration_days / 7 in
  let feasibility := classify_feasibility duration_days in
  let traffic_assessment := classify_traffic population_split_percent in
  Ok (mkRow mde_percent mde_decimal sample_size_per_variant total_sample_size
            (Num.round population_split_percent 2)
            (Num.round duration_days 2)
            (Num.round duration_weeks 2)
            feasibility traffic_assessment).

(** The [for] loop: [results] is the list built so far. *)
Fixpoint sweep_loop (self : PowerAnalysisCalculator) (mde_range : list Z)
  (results : list Row) : Result (list Row) :=
  match mde_range with
  | [] => Ok results
  | mde_percent :: rest =>
      row <- sweep_row self mde_percent ;;
      sweep_loop self rest (results ++ [row])
  end.

(** [calculate_power_analysis]: returns the frame and stores it in [self]. *)
Definition calculate_power_analysis (self : PowerAnalysisCalculator)
  (mde_range : option (list Z)) : Result (PowerAnalysisCalculator * DataFrame) :=
  let mde_range :=
    match mde_range with
    | None => Num.range 1 31
    | Some l => l
    end in
  results <- sweep_loop self mde_range [] ;;
  let df := pd.DataFrame results in
  Ok (set_results_df self df, df).

Definition recommendation_of (r : Row) : Recommendation :=
  mkRec (MDE_Percent r) (Duration_Days r) (Total_Sample_Size r).

(** The three masks of [get_recommendations]. *)
Definition feasible_mask (r : Row) : bool :=
  Qle_bool (Duration_Days r) 30 && Qle_bool (Population_Split_Percent r) 50.

Definition quick_mask (r : Row) : bool :=
  Qle_bool (Duration_Days r) 7.

Definition standard_mask (r : Row) : bool :=
  negb (Qle_bool (Duration_Days r) 7) && Qle_bool (Duration_Days r) 21.

(** [get_recommendations], from the frame on. *)
Definition recommend (df : DataFrame) : Result Recommendations :=
  feasible <- pd.select df feasible_mask ;;
  quick <- pd.select feasible quick_mask ;;
  quick_test <-
    (if negb (pd.empty quick) then
       r <- pd.iloc quick (-1) ;; Ok (Some (recommendation_of r))
     else Ok None) ;;
  standard <- pd.select feasible standard_mask ;;
  standard_test <-
    (if negb (pd.empty standard) then
       let mid_idx := (pd.len standard / 2)%Z in
       r <- pd.iloc standard mid_idx ;; Ok (Some (recommendation_of r))
     else Ok None) ;;
  sensitive_test <-
    (if negb (pd.empty feasible) then
       r <- pd.iloc feasible 0 ;; Ok (Some (recommendation_of r))
     else Ok None) ;;
  Ok (mkRecs quick_test standard_test sensitive_test).

(** [get_recommendations]: runs the default sweep first when no frame has
    been stored yet. *)
Definition get_recommendations (self : PowerAnalysisCalculator)
  : Result (PowerAnalysisCalculator * Recommendations) :=
  match results_df self with
  | Some df =>
      recs <- recommend df ;; Ok (self, recs)
  | None =>
      st <- calculate_power_analysis self None ;;
      recs <- recommend (snd st) ;; Ok (fst st, recs)
  end.

(** ** The presentation methods

    What these methods hand to [print], to matplotlib and to [to_csv] is kept
    as data; the rendering itself (number formats, drawing) is the
    library's. *)

(** Python's [x > y] on numbers. *)
Definition gt (x y : Q) : bool := negb (Qle_bool x y).

(** Python's truth value of [top_n]: [None] and [0] are false. *)
Definition truthy (top_n : option Z) : bool :=
  match top_n with
  | None => false
  | Some n => negb (n =? 0)%Z
  end.

(** The rows that the [for] loop of [display_results] prints, one line each,
    in order. *)
Definition displayed (df : DataFrame) (top_n : option Z) : list Row :=
  let df_display := pd.copy df in
  let df_display :=
    match top_n with
    | Some n => if truthy top_n then pd.head df_display n else df_display
    | None => df_display
    end in
  rows df_display.

(** What [display_results] prints: the five parameters of [self], then one
    line per displayed row (the rules, the title and the column heads are
    constant). *)
Record Display : Set := mkDisplay {
  shown_baseline_rate : Q;
  shown_monthly_population : Z;
  shown_num_variants : Z;
  shown_power : Q;
  shown_alpha : Q;
  shown_rows : list Row
}.

(** The body of [display_results] once the frame is there. *)
Definition display (self : PowerAnalysisCalculator) (df : DataFrame)
  (top_n : option Z) : Display :=
  mkDisplay (baseline_rate self) (monthly_population self) (num_variants self)
            (power self) (alpha self) (displayed df top_n).

(** [display_results]: the calculator afterwards and what is printed. *)
Definition display_results (self : PowerAnalysisCalculator)
  (top_n : option Z) : Result (PowerAnalysisCalculator * Display) :=
  match results_df self with
  | Some df => Ok (self, display self df top_n)
  | None =>
      st <- calculate_power_analysis self None ;;
      Ok (fst st, display (fst st) (snd st) top_n)
  end.

(** The colour names of [plot_power_curve]. *)
Inductive color : Set := red | orange | green.

(** ['red' if x > 30 else 'orange' if x > 14 else 'green'] *)
Definition duration_color (x : Q) : color :=
  if gt x 30 then red else if gt x 14 then orange else green.

(** ['red' if x > 75 else 'orange' if x > 50 else 'green'] *)
Definition split_color (x : Q) : color :=
  if gt x 75 then red else if gt x 50 then orange else green.

(** [feasibility_map]: ['Very Short': 4, 'Short': 3, 'Moderate': 2,
    'Long': 1]. *)
Definition feasibility_map (f : feasibility_label) : Z :=
  match f with
  | VeryShort => 4
  | Short => 3
  | Moderate => 2
  | Long => 1
  end.

(** The series that [plot_power_curve] passes to the four axes. *)
Record PlotData : Set := mkPlot {
  ax1_x : list Z;  ax1_y : list Z;
  ax2_x : list Z;  ax2_y : list Q;  ax2_c : list color;
  ax3_x : list Z;  ax3_height : list Q;  ax3_color : list color;
  ax4_x : list Z;  ax4_y : list Q;  ax4_c : list Z
}.

(** The body of [plot_power_curve] once the frame is there, in the order of
    its column lookups. *)
Definition plot_series (df : DataFrame) : Result PlotData :=
  x1 <- pd.column df MDE_Percent ;;
  y1 <- pd.column df Sample_Size_Per_Variant ;;
  d <- pd.column df Duration_Days ;;
  let colors := map duration_color d in
  x2 <- pd.column df MDE_Percent ;;
  y2 <- pd.column df Duration_Days ;;
  x3 <- pd.column df MDE_Percent ;;
  h3 <- pd.column df Population_Split_Percent ;;
  s <- pd.column df Population_Split_Percent ;;
  let bar_colors := map split_color s in
  f <- pd.column df Feasibility ;;
  let feasibility_scores := map feasibility_map f in
  x4 <- pd.column df MDE_Percent ;;
  y4 <- pd.column df Population_Split_Percent ;;
  Ok (mkPlot x1 y1 x2 y2 colors x3 h3 bar_colors x4 y4 feasibility_scores).

(** Writing a file at [path]: [plt.savefig] and [DataFrame.to_csv] raise
    [OSError] when the file system refuses the path.  [writable] is the file
    system's answer. *)
Definition write_file (writable : String.string -> bool) (path : String.string)
  : Result unit :=
  if writable path then Ok tt else Raise OSError.

(** Python's truth value of [save_path]: [None] and the empty string are
    false. *)
Definition truthy_path (save_path : option String.string) : bool :=
  match save_path with
  | None => false
  | Some String.EmptyString => false
  | Some (String.String _ _) => true
  end.

(** [if save_path: plt.savefig(save_path, ...)] *)
Definition savefig (writable : String.string -> bool)
  (save_path : option String.string) : Result unit :=
  match save_path with
  | Some path => if truthy_path save_path then write_file writable path
                 else Ok tt
  | None => Ok tt
  end.

(** [plot_power_curve]: the calculator afterwards and the plotted series;
    the figure is saved after the four axes are drawn. *)
Definition plot_power_curve (writable : String.string -> bool)
  (self : PowerAnalysisCalculator) (save_path : option String.string)
  : Result (PowerAnalysisCalculator * PlotData) :=
  match results_df self with
  | Some df =>
      data <- plot_series df ;;
      _ <- savefig writable save_path ;;
      Ok (self, data)
  | None =>
      st <- calculate_power_analysis self None ;;
      data <- plot_series (snd st) ;;
      _ <- savefig writable save_path ;;
      Ok (fst st, data)
  end.

(** [export_to_csv]: the calculator afterwards and the file written, its
    name and the frame handed to [to_csv]. *)
Definition export_to_csv (writable : String.string -> bool)
  (self : PowerAnalysisCalculator) (filename : String.string)
  : Result (PowerAnalysisCalculator * (String.string * DataFrame)) :=
  match results_df self with
  | Some df =>
      _ <- write_file writable filename ;;
      Ok (self, (filename, df))
  | None =>
      st <- calculate_power_analysis self None ;;
      _ <- write_file writable filename ;;
      Ok (fst st, (filename, snd st))
  end.

(** ** The arithmetic methods on binary64

    The same methods, with Python's [float] and numpy's [float64] as IEEE 754
    binary64 numbers.  The operations are those of the standard library's
    [SpecFloat] at 53 bits of precision: each one returns the double nearest
    to the exact result, ties to even, an infinity on overflow.  What Python
    and numpy add to the IEEE operations is written out: Python raises
    [ZeroDivisionError] on a zero divisor and [OverflowError] when a power or
    an [int] division overflows; numpy raises nothing and returns an infinity
    or a NaN; [int(...)] refuses both. *)

Module Binary64.

Definition prec : Z := 53.
Definition emax : Z := 1024.

(** A double: [S754_zero s], [S754_infinity s], [S754_nan], or
    [S754_finite s m e] for the number [(-1)^s * m * 2^e]. *)
Definition float64 : Set := spec_float.

Definition add : float64 -> float64 -> float64 := SFadd prec emax.
Definition sub : float64 -> float64 -> float64 := SFsub prec emax.
Definition mul : float64 -> float64 -> float64 := SFmul prec emax.
Definition div : float64 -> float64 -> float64 := SFdiv prec emax.
Definition leb : float64 -> float64 -> bool := SFleb.
Definition ltb : float64 -> float64 -> bool := SFltb.
Definition eqb : float64 -> float64 -> bool := SFeqb.

Definition is_nan (x : float64) : bool :=
  match x with
  | S754_nan => true
  | _ => false
  end.

Definition is_inf (x : float64) : bool :=
  match x with
  | S754_infinity _ => true
  | _ => false
  end.

Definition is_zero (x : float64) : bool :=
  match x with
  | S754_zero _ => true
  | _ => false
  end.

Definition is_finite (x : float64) : bool :=
  match x with
  | S754_zero _ | S754_finite _ _ _ => true
  | _ => false
  end.

(** An integer as an exact operand of a division. *)
Definition raw (n : Z) : float64 :=
  match n with
  | Z0 => S754_zero false
  | Zpos p => S754_finite false p 0
  | Zneg p => S754_finite true p 0
  end.

(** [float(n)]: the double nearest to the integer [n] (an infinity when [n]
    is too large). *)
Definition of_int (n : Z) : float64 := binary_normalize prec emax n 0 false.

(** The double nearest to the quotient [a / b] of two integers. *)
Definition int_quotient (a b : Z) : float64 := div (raw a) (raw b).

(** The double that the decimal literal [digits * 10^exp10] denotes. *)
Definition dec (digits exp10 : Z) : float64 :=
  if (0 <=? exp10)%Z then of_int (digits * 10 ^ exp10)
  else int_quotient digits (10 ^ (- exp10)).

(** The exact value of a finite double. *)
Definition value (x : float64) : option Q :=
  match x with
  | S754_zero _ => Some 0
  | S754_finite s m e =>
      let n := cond_Zopp s (Zpos m) in
      Some (match e with
            | Zneg k => n # (2 ^ k)
            | _ => inject_Z (n * 2 ^ e)
            end)
  | _ => None
  end.

(** [np.ceil]: the least integer not below [x], as a double (its mantissa
    is left as the integer itself: the result only goes to [int]). *)
Definition np_ceil (x : float64) : float64 :=
  match x with
  | S754_finite s m (Zneg k) =>
      match Qceiling (cond_Zopp s (Zpos m) # (2 ^ k)) with
      | Z0 => S754_zero s
      | Zpos c => S754_finite false c 0
      | Zneg c => S754_finite true c 0
      end
  | other => other
  end.

(** [int(x)]: truncation toward zero; [OverflowError] on an infinity,
    [ValueError] on a NaN. *)
Definition int (x : float64) : Result Z :=
  match value x with
  | Some v => Ok (if Qle_bool 0 v then Qfloor v else Qceiling v)
  | None => if is_nan x then Raise ValueError else Raise OverflowError
  end.

(** The conversion of the [int] operand of [int / float]: [OverflowError]
    when the integer is too large for a double. *)
Definition float_of_int (n : Z) : Result float64 :=
  let x := of_int n in
  if is_inf x then Raise OverflowError else Ok x.

(** Python's [a / b] on two [int]: the double nearest to the quotient. *)
Definition truediv_int (a b : Z) : Result float64 :=
  if (b =? 0)%Z then Raise ZeroDivisionError
  else let q := int_quotient a b in
       if is_inf q then Raise OverflowError else Ok q.

(** Python's [x / y] on two [float]: an overflow gives an infinity. *)
Definition truediv (x y : float64) : Result float64 :=
  if is_zero y then Raise ZeroDivisionError else Ok (div x y).

(** Python's [x ** 2] on a [float]: the square rounded to nearest;
    [OverflowError] when the square of a finite number overflows, silence
    when it underflows. *)
Definition pow2 (x : float64) : Result float64 :=
  let y := mul x x in
  if is_finite x && is_inf y then Raise OverflowError else Ok y.

(** numpy's [x ** 2] on a [float64]: the square rounded to nearest, no
    exception. *)
Definition np_pow2 (x : float64) : float64 := mul x x.

(** Python's [round(x, ndigits)] on a [float]: the exact value of [x] rounded
    to [ndigits] decimals, half to even, then the double nearest to that
    decimal; a zero keeps the sign of [x]; infinities and NaN are returned
    as they are. *)
Definition round (x : float64) (ndigits : nat) : float64 :=
  match value x with
  | Some v =>
      let scale := (10 ^ Z.of_nat ndigits)%Z in
      match Num.round_half_even (v * inject_Z scale) with
      | Z0 => match x with
              | S754_finite s _ _ => S754_zero s
              | other => other
              end
      | k => int_quotient k scale
      end
  | None => x
  end.

(** Python's [x <= n] and [x > n] between a [float] and an [int] that a
    double holds exactly: both are false when [x] is a NaN. *)
Definition le (x : float64) (n : Z) : bool := leb x (of_int n).
Definition gt (x : float64) (n : Z) : bool := ltb (of_int n) x.

(** One dictionary appended to [results]. *)
Record Row : Set := mkRow {
  MDE_Percent : Z;
  MDE_Decimal : float64;
  Sample_Size_Per_Variant : Z;
  Total_Sample_Size : Z;
  Population_Split_Percent : float64;
  Duration_Days : float64;
  Duration_Weeks : float64;
  Feasibility : feasibility_label;
  Traffic_Assessment : traffic_label
}.

Record DataFrame : Set := mkFrame {
  has_columns : bool;
  rows : list Row
}.

(** [pd.DataFrame(results)] *)
Definition pd_DataFrame (results : list Row) : DataFrame :=
  match results with
  | [] => mkFrame false []
  | _ :: _ => mkFrame true results
  end.

Record PowerAnalysisCalculator : Set := mkCalc {
  baseline_rate : float64;
  monthly_population : Z;
  num_variants : Z;
  power : float64;
  alpha : float64;
  z_alpha_2 : float64;
  z_beta : float64;
  results_df : option DataFrame
}.

Definition set_results_df (self : PowerAnalysisCalculator) (df : DataFrame)
  : PowerAnalysisCalculator :=
  mkCalc (baseline_rate self) (monthly_population self) (num_variants self)
         (power self) (alpha self) (z_alpha_2 self) (z_beta self) (Some df).

(** [__init__].  [ppf] is scipy's [stats.norm.ppf]: it returns a [float64]
    for every argument, an infinity at 0 and at 1 and a NaN outside [0,1],
    and never raises. *)
Definition __init__ (ppf : float64 -> float64)
  (baseline_rate : float64) (monthly_population num_variants : Z)
  (power alpha : float64) : Result PowerAnalysisCalculator :=
  let z_alpha_2 := ppf (sub (of_int 1) (div alpha (of_int 2))) in
  let z_beta := ppf power in
  Ok (mkCalc baseline_rate monthly_population num_variants power alpha
             z_alpha_2 z_beta None).

(** [2 * (self.z_alpha_2 + self.z_beta)**2 * p * (1 - p)]: the z-values are
    numpy numbers, so the whole product is numpy's. *)
Definition numerator (self : PowerAnalysisCalculator) : float64 :=
  let p := baseline_rate self in
  mul (mul (mul (of_int 2) (np_pow2 (add (z_alpha_2 self) (z_beta self)))) p)
      (sub (of_int 1) p).

(** [numerator / denominator], with [denominator = mde**2] a Python power
    and the division numpy's. *)
Definition quotient (self : PowerAnalysisCalculator) (mde : float64)
  : Result float64 :=
  let numerator := numerator self in
  denominator <- pow2 mde ;;
  Ok (div numerator denominator).

(** [calculate_sample_size] *)
Definition calculate_sample_size (self : PowerAnalysisCalculator)
  (mde : float64) : Result Z :=
  q <- quotient self mde ;;
  int (np_ceil q).

(** The two [if]/[elif] chains of the loop body. *)
Definition classify_feasibility (duration_days : float64) : feasibility_label :=
  if le duration_days 7 then VeryShort
  else if le duration_days 14 then Short
  else if le duration_days 30 then Moderate
  else Long.

Definition classify_traffic (population_split_percent : float64)
  : traffic_label :=
  if le population_split_percent 25 then Excellent
  else if le population_split_percent 50 then Good
  else if le population_split_percent 75 then Challenging
  else InsufficientTraffic.

(** The body of the [for] loop of [calculate_power_analysis], statement by
    statement. *)
Definition sweep_row (self : PowerAnalysisCalculator) (mde_percent : Z)
  : Result Row :=
  mde_decimal <- truediv_int mde_percent 100 ;;
  sample_size_per_variant <- calculate_sample_size self mde_decimal ;;
  let total_sample_size := (sample_size_per_variant * num_variants self)%Z in
  share <- truediv_int total_sample_size (monthly_population self) ;;
  let population_split_percent := mul share (of_int 100) in
  daily_population <- truediv_int (monthly_population self) 30 ;;
  total <- float_of_int total_sample_size ;;
  duration_days <- truediv total daily_population ;;
  let duration_weeks := div duration_days (of_int 7) in
  let feasibility := classify_feasibility duration_days in
  let traffic_assessment := classify_traffic population_split_percent in
  Ok (mkRow mde_percent mde_decimal sample_size_per_variant total_sample_size
            (round population_split_percent 2)
            (round duration_days 2)
            (round duration_weeks 2)
            feasibility traffic_assessment).

Fixpoint sweep_loop (self : PowerAnalysisCalculator) (mde_range : list Z)
  (results : list Row) : Result (list Row) :=
  match mde_range with
  | [] => Ok results
  | mde_percent :: rest =>
      row <- sweep_row self mde_percent ;;
      sweep_loop self rest (results ++ [row])
  end.

(** [calculate_power_analysis]: returns the frame and stores it in [self]. *)
Definition calculate_power_analysis (self : PowerAnalysisCalculator)
  (mde_range : option (list Z)) : Result (PowerAnalysisCalculator * DataFrame) :=
  let mde_range :=
    match mde_range with
    | None => Num.range 1 31
    | Some l => l
    end in
  results <- sweep_loop self mde_range [] ;;
  let df := pd_DataFrame results in
  Ok (set_results_df self df, df).

End Binary64.

(** ** Reference inputs *)

(** The two values of [stats.norm.ppf] that the default parameters
    ([alpha = 0.05], [power = 0.8]) ask for, as scipy prints them; no other
    argument is tabulated (the table answers 0 there). *)
Definition norm_ppf_table (q : Q) : Q :=
  if Qeq_bool q (975 # 1000) then 1959963984540054 # 1000000000000000
  else if Qeq_bool q (8 # 10) then 8416212335729143 # 10000000000000000
  else 0.

(** [PowerAnalysisCalculator()] with every default: baseline 5%, 100000
    units a month, two variants, power 0.8, alpha 0.05. *)
Definition default_calculator : PowerAnalysisCalculator :=
  mkCalc (5 # 100) 100000 2 (8 # 10) (5 # 100)
         (1959963984540054 # 1000000000000000)
         (8416212335729143 # 10000000000000000) None.

(** The same values of [stats.norm.ppf] as doubles, with the infinities that
    scipy answers at 1 and at 0; no other argument is tabulated (the table
    answers NaN there). *)
Definition norm_ppf_table64 (q : Binary64.float64) : Binary64.float64 :=
  if Binary64.eqb q (Binary64.dec 975 (-3)) then
    Binary64.dec 1959963984540054 (-15)
  else if Binary64.eqb q (Binary64.dec 8 (-1)) then
    Binary64.dec 8416212335729143 (-16)
  else if Binary64.eqb q (Binary64.dec 1 0) then S754_infinity false
  else if Binary64.eqb q (Binary64.dec 0 0) then S754_infinity true
  else S754_nan.

(** The calculator with the default rates and z-values, in binary64, for a
    given monthly population and number of variants. *)
Definition calculator64 (monthly_population num_variants : Z)
  : Binary64.PowerAnalysisCalculator :=
  Binary64.mkCalc (Binary64.dec 5 (-2)) monthly_population num_variants
                  (Binary64.dec 8 (-1)) (Binary64.dec 5 (-2))
                  (Binary64.dec 1959963984540054 (-15))
                  (Binary64.dec 8416212335729143 (-16)) None.


(** ** Definitions used by the statements *)

(** [n] is the ceiling of [x]: the least integer not below [x]. *)
Definition is_ceiling (x : Q) (n : Z) : Prop :=
  inject_Z n - 1 < x /\ x <= inject_Z n.

(** The formula of the specification, before the ceiling:
    [2 * (z_alpha_2 + z_beta)^2 * p * (1 - p) / mde_decimal^2]. *)
Definition sample_size_formula (z_alpha_2 z_beta p mde_decimal : Q) : Q :=
  2 * (z_alpha_2 + z_beta) ^ 2 * p * (1 - p) / mde_decimal ^ 2.

Definition formula_of (self : PowerAnalysisCalculator) (mde : Q) : Q :=
  sample_size_formula (z_alpha_2 self) (z_beta self) (baseline_rate self) mde.

(** The z-values of the worked example in the specification, to six
    decimals. *)
Definition z_alpha_2_example : Q := 1959964 # 1000000.
Definition z_beta_example : Q := 841621 # 1000000.

(** The expression of the worked example:
    [2*(1.959964+0.841621)^2*0.05*0.95/0.01]. *)
Definition example_expression : Q :=
  2 * (z_alpha_2_example + z_beta_example) ^ 2 * (5 # 100) * (95 # 100)
  / (1 # 100).

(** [y] is [x] rounded to two decimals: a whole number of hundredths, at most
    half a hundredth away from [x]. *)
Definition rounded_to_2_decimals (x y : Q) : Prop :=
  (exists k : Z, y = inject_Z k / inject_Z 100) /\ Qabs (y - x) <= 1 # 200.

(** The dictionary that the loop body builds from a sample size [n]. *)
Definition row_of (self : PowerAnalysisCalculator) (mde_percent n : Z) : Row :=
  let total := (n * num_variants self)%Z in
  let split :=
    inject_Z total / inject_Z (monthly_population self) * 100 in
  let days :=
    inject_Z total / (inject_Z (monthly_population self) / 30) in
  mkRow mde_percent (inject_Z mde_percent / 100) n total
        (Num.round split 2) (Num.round days 2) (Num.round (days / 7) 2)
        (classify_feasibility days) (classify_traffic split).

(** The single record of the default calculator's sweep over [[10]]. *)
Definition example_row : Row := row_of default_calculator 10 75.
Definition example_frame : DataFrame := pd.DataFrame [example_row].

(** The same calculator with an arbitrary content of the [results_df]
    attribute. *)
Definition with_results_df (self : PowerAnalysisCalculator)
  (cache : option DataFrame) : PowerAnalysisCalculator :=
  mkCalc (baseline_rate self) (monthly_population self) (num_variants self)
         (power self) (alpha self) (z_alpha_2 self) (z_beta self) cache.

(** The calculator as a call of [calculate_power_analysis] leaves it: with the
    new frame stored when the call returns, untouched when it raises. *)
Definition state_after (out : Result (PowerAnalysisCalculator * DataFrame))
  (self : PowerAnalysisCalculator) : PowerAnalysisCalculator :=
  match out with
  | Ok (self', _) => self'
  | Raise _ => self
  end.

(** The frame a sweep returns, whatever it stores. *)
Definition frame_of (out : Result (PowerAnalysisCalculator * DataFrame))
  : Result DataFrame :=
  r <- out ;; Ok (snd r).

(** The three picks, on plain lists: the last element, the element at
    position [floor (length / 2)], and the first element. *)
Definition pick_last (l : list Row) : option Row :=
  nth_error l (length l - 1).

Definition pick_middle (l : list Row) : option Row :=
  nth_error l (length l / 2).

Definition pick_first (l : list Row) : option Row :=
  nth_error l 0.

(** The result sequence is in ascending MDE order. *)
Definition ascending_mde (results : list Row) : Prop :=
  StronglySorted (fun a b => (MDE_Percent a <= MDE_Percent b)%Z) results.

(** The candidate pools of the selector, on a result sequence. *)
Definition feasible_records (results : list Row) : list Row :=
  filter feasible_mask results.

Definition quick_records (results : list Row) : list Row :=
  filter quick_mask (feasible_records results).

Definition standard_records (results : list Row) : list Row :=
  filter standard_mask (feasible_records results).

(** The recommendations of the default calculator on [example_frame]. *)
Definition example_recommendations : Recommendations :=
  mkRecs (Some (recommendation_of example_row)) None
         (Some (recommendation_of example_row)).

(** ** Definitions used by the further properties *)

(** The two records of the default calculator's sweep over [[10; 20]]. *)
Definition example_rows_2 : list Row :=
  [row_of default_calculator 10 75; row_of default_calculator 20 19].
Definition example_frame_2 : DataFrame := pd.DataFrame example_rows_2.

(** The value a method returns, without the calculator it leaves. *)
Definition value_of {A : Type} (out : Result (PowerAnalysisCalculator * A))
  : Result A :=
  r <- out ;; Ok (snd r).

(** The rows that a call of [display_results] prints. *)
Definition rows_shown (out : Result (PowerAnalysisCalculator * Display))
  : Result (list Row) :=
  r <- out ;; Ok (shown_rows (snd r)).

(** The two quantities that the loop body classifies, as it computes them
    before rounding, from a record's total sample size:
    [total_sample_size / (monthly_population / 30)] and
    [(total_sample_size / monthly_population) * 100]. *)
Definition unrounded_duration_days (self : Binary64.PowerAnalysisCalculator)
  (r : Binary64.Row) : Binary64.float64 :=
  Binary64.div (Binary64.of_int (Binary64.Total_Sample_Size r))
               (Binary64.int_quotient (Binary64.monthly_population self) 30).

Definition unrounded_population_split (self : Binary64.PowerAnalysisCalculator)
  (r : Binary64.Row) : Binary64.float64 :=
  Binary64.mul (Binary64.int_quotient (Binary64.Total_Sample_Size r)
                                      (Binary64.monthly_population self))
               (Binary64.of_int 100).

(** The record of the sweep over [[7]] with a monthly population of 306:
    153 units per variant, 306 in total, stored as 100.0 percent, 30.0 days
    and 4.29 weeks. *)
Definition boundary_row : Binary64.Row :=
  Binary64.mkRow 7 (Binary64.dec 7 (-2)) 153 306
                 (Binary64.dec 100 0) (Binary64.dec 30 0)
                 (Binary64.dec 429 (-2)) Long InsufficientTraffic.

(** The record of the sweep over [[1]] with a monthly population of 63900:
    7457 units per variant, stored as 23.34 percent, 7.0 days and 1.0
    weeks. *)
Definition rounded_row : Binary64.Row :=
  Binary64.mkRow 1 (Binary64.dec 1 (-2)) 7457 14914
                 (Binary64.dec 2334 (-2)) (Binary64.dec 7 0)
                 (Binary64.dec 1 0) Short Excellent.

(** The same binary64 calculator with an arbitrary content of the
    [results_df] attribute, and the frame that a binary64 sweep returns. *)
Definition with_results_df64 (self : Binary64.PowerAnalysisCalculator)
  (cache : option Binary64.DataFrame) : Binary64.PowerAnalysisCalculator :=
  Binary64.mkCalc (Binary64.baseline_rate self)
                  (Binary64.monthly_population self)
                  (Binary64.num_variants self) (Binary64.power self)
                  (Binary64.alpha self) (Binary64.z_alpha_2 self)
                  (Binary64.z_beta self) cache.

Definition frame_of64
  (out : Result (Binary64.PowerAnalysisCalculator * Binary64.DataFrame))
  : Result Binary64.DataFrame :=
  r <- out ;; Ok (snd r).

(** ** Facts about the numeric primitives *)

Section NumFacts.

Lemma inject_Z_pred (n : Z) : inject_Z (n - 1) = inject_Z n - 1.
Proof. unfold Z.sub. rewrite inject_Z_plus. reflexivity. Qed.

Lemma Qceiling_is_ceiling (x : Q) : is_ceiling x (Qceiling x).
Proof.
  split.
  - pose proof (Qceiling_lt x) as H.
    rewrite inject_Z_pred in H. exact H.
  - apply Qle_ceiling.
Qed.

Lemma is_ceiling_unique (x : Q) (n m : Z) :
  is_ceiling x n -> is_ceiling x m -> n = m.
Proof.
  intros [Hn1 Hn2] [Hm1 Hm2].
  assert (Hnm : inject_Z n - 1 < inject_Z m) by lra.
  assert (Hmn : inject_Z m - 1 < inject_Z n) by lra.
  assert (Hnm' : inject_Z (n - 1) < inject_Z m)
    by (rewrite inject_Z_pred; exact Hnm).
  assert (Hmn' : inject_Z (m - 1) < inject_Z n)
    by (rewrite inject_Z_pred; exact Hmn).
  rewrite <- Zlt_Qlt in Hnm', Hmn'. lia.
Qed.

Lemma Qceiling_eq (x : Q) (n : Z) : is_ceiling x n -> Qceiling x = n.
Proof.
  intros H. apply (is_ceiling_unique x); [apply Qceiling_is_ceiling | exact H].
Qed.

(** [int(np.ceil(x))] of a finite [x] is the ceiling of [x]: the float
    that [np.ceil] returns is already integral, so truncation keeps it. *)
Lemma int_np_ceil_finite (q : Q) :
  Num.int (Num.np_ceil (Num.Finite q)) = Ok (Qceiling q).
Proof.
  simpl. f_equal.
  destruct (Qle_bool 0 (inject_Z (Qceiling q)));
    [apply Qfloor_Z | apply Qceiling_Z].
Qed.

Lemma np_divide_nonzero (a b : Q) :
  ~ b == 0 -> Num.np_divide a b = Num.Finite (a / b).
Proof.
  intros Hb. unfold Num.np_divide.
  destruct (Qeq_bool b 0) eqn:E; [ | reflexivity].
  apply Qeq_bool_eq in E. contradiction.
Qed.

Lemma np_divide_zero (a b : Q) :
  b == 0 -> exists x, Num.np_divide a b = x /\
                      (x = Num.NaN \/ x = Num.PosInf \/ x = Num.NegInf).
Proof.
  intros Hb. unfold Num.np_divide.
  apply Qeq_bool_iff in Hb. rewrite Hb.
  destruct (a ?= 0); eexists; split; eauto.
Qed.

Lemma truediv_nonzero (a b : Q) :
  ~ b == 0 -> Num.truediv a b = Ok (a / b).
Proof.
  intros Hb. unfold Num.truediv.
  destruct (Qeq_bool b 0) eqn:E; [ | reflexivity].
  apply Qeq_bool_eq in E. contradiction.
Qed.

Lemma truediv_zero (a b : Q) :
  b == 0 -> Num.truediv a b = Raise ZeroDivisionError.
Proof.
  intros Hb. unfold Num.truediv.
  apply Qeq_bool_iff in Hb. now rewrite Hb.
Qed.


Lemma Qsquare_nonzero (x : Q) : ~ x == 0 -> ~ x ^ 2 == 0.
Proof. intros Hx H. apply Hx. nra. Qed.

Lemma Qsquare_zero (x : Q) : x == 0 -> x ^ 2 == 0.
Proof. intros Hx. rewrite Hx. reflexivity. Qed.

End NumFacts.

(** ** The sample size function *)

Section SampleSize.

Variable self : PowerAnalysisCalculator.

Lemma calculate_sample_size_nonzero (mde : Q) :
  ~ mde == 0 ->
  calculate_sample_size self mde = Ok (Qceiling (formula_of self mde)).
Proof.
  intros Hm. unfold calculate_sample_size.
  rewrite np_divide_nonzero by (now apply Qsquare_nonzero).
  apply int_np_ceil_finite.
Qed.

Lemma calculate_sample_size_zero (mde : Q) :
  mde == 0 ->
  exists e, calculate_sample_size self mde = Raise e /\
            (e = OverflowError \/ e = ValueError).
Proof.
  intros Hm. unfold calculate_sample_size.
  destruct (np_divide_zero
              (2 * (z_alpha_2 self + z_beta self) ^ 2 * baseline_rate self *
               (1 - baseline_rate self)) (mde ^ 2) (Qsquare_zero mde Hm))
    as [x [-> [-> | [-> | ->]]]]; simpl; eauto.
Qed.



End SampleSize.

(** ** Facts about binary64 *)

Section Binary64Facts.

Import Binary64.

Lemma int_integral (x : float64) (n : Z) :
  value x = Some (inject_Z n) -> int x = Ok n.
Proof.
  intros H. unfold int. rewrite H.
  destruct (Qle_bool 0 (inject_Z n)); f_equal;
    [apply Qfloor_Z | apply Qceiling_Z].
Qed.

(** [int(np.ceil(q))] of a finite quotient is the ceiling of its exact
    value. *)
Lemma int_np_ceil (x : float64) (v : Q) :
  value x = Some v -> int (np_ceil x) = Ok (Qceiling v).
Proof.
  destruct x as [s | s | | s m e]; cbn [value]; intros H; try discriminate.
  - injection H as <-. reflexivity.
  - injection H as <-. destruct e as [ | k | k].
    + rewrite Qceiling_Z. apply int_integral. reflexivity.
    + rewrite Qceiling_Z. apply int_integral. reflexivity.
    + unfold np_ceil.
      destruct (Qceiling (cond_Zopp s (Z.pos m) # 2 ^ k)) as [ | c | c];
        apply int_integral; cbn [value cond_Zopp];
        try reflexivity; do 2 f_equal; lia.
Qed.

Lemma int_np_ceil_not_finite (x : float64) :
  value x = None ->
  int (np_ceil x) = Raise (if is_nan x then ValueError else OverflowError).
Proof.
  destruct x as [s | s | | s m e]; cbn [value]; intros H; try discriminate;
    reflexivity.
Qed.

Lemma int_np_ceil_div_zero (n : float64) (s : bool) :
  int (np_ceil (div n (S754_zero s))) =
  Raise (if is_zero n || is_nan n then ValueError else OverflowError).
Proof.
  destruct n as [sn | sn | | sn m e]; reflexivity.
Qed.

Lemma pow2_outcome (x : float64) :
  pow2 x = Ok (mul x x) \/ pow2 x = Raise OverflowError.
Proof.
  unfold pow2. destruct (is_finite x && is_inf (mul x x)); auto.
Qed.


Lemma pow2_zero (x : float64) :
  is_zero x = true -> pow2 x = Ok (S754_zero false).
Proof.
  destruct x as [s | s | | s m e]; cbn [is_zero]; intros H; try discriminate.
  destruct s; reflexivity.
Qed.

End Binary64Facts.

(** No operation of the loop produces a NaN from finite operands. *)
Section Binary64NoNaN.

Import Binary64.

Lemma shr_1_nonneg (mrs : shr_record) :
  (0 <= shr_m mrs)%Z -> (0 <= shr_m (shr_1 mrs))%Z.
Proof.
  destruct mrs as [m r s]. cbn [shr_m]. intros H.
  destruct m as [ | [p | p | ] | p]; cbn; lia.
Qed.

Lemma iter_shr_1_nonneg (p : positive) :
  forall mrs, (0 <= shr_m mrs)%Z -> (0 <= shr_m (iter_pos shr_1 p mrs))%Z.
Proof.
  induction p as [p IH | p IH | ]; intros mrs H; cbn [iter_pos].
  - apply IH, IH, shr_1_nonneg, H.
  - apply IH, IH, H.
  - apply shr_1_nonneg, H.
Qed.

Lemma shr_fexp_nonneg (m e : Z) (l : location) :
  (0 <= m)%Z -> (0 <= shr_m (fst (shr_fexp prec emax m e l)))%Z.
Proof.
  intros H. unfold shr_fexp, shr.
  assert (H0 : (0 <= shr_m (shr_record_of_loc m l))%Z)
    by (destruct l as [ | []]; exact H).
  destruct (fexp prec emax (Zdigits2 m + e) - e)%Z; cbn [fst];
    [exact H0 | now apply iter_shr_1_nonneg | exact H0].
Qed.

Lemma round_nearest_even_nonneg (m : Z) (l : location) :
  (0 <= m)%Z -> (0 <= round_nearest_even m l)%Z.
Proof.
  intros H. destruct l as [ | []]; cbn [round_nearest_even];
    try destruct (Z.even m); lia.
Qed.

Lemma binary_round_aux_not_nan (s : bool) (m e : Z) (l : location) :
  (0 <= m)%Z -> is_nan (binary_round_aux prec emax s m e l) = false.
Proof.
  intros H. unfold binary_round_aux.
  pose proof (shr_fexp_nonneg m e l H) as H1.
  destruct (shr_fexp prec emax m e l) as [mrs' e']. cbn [fst] in H1.
  pose proof (shr_fexp_nonneg
                (round_nearest_even (shr_m mrs') (loc_of_shr_record mrs'))
                e' loc_Exact
                (round_nearest_even_nonneg _ _ H1)) as H2.
  destruct (shr_fexp prec emax
              (round_nearest_even (shr_m mrs') (loc_of_shr_record mrs'))
              e' loc_Exact) as [mrs'' e'']. cbn [fst] in H2.
  destruct (shr_m mrs'') as [ | p | p]; [reflexivity | | lia].
  destruct (e'' <=? emax - prec)%Z; reflexivity.
Qed.

Lemma of_int_not_nan (n : Z) : is_nan (of_int n) = false.
Proof.
  unfold of_int, binary_normalize, binary_round.
  destruct n as [ | p | p]; [reflexivity | | ];
    destruct (shl_align _ _ _) as [mz ez];
    now apply binary_round_aux_not_nan.
Qed.

Lemma mul_not_nan (x y : float64) :
  is_finite x = true -> is_finite y = true -> is_nan (mul x y) = false.
Proof.
  destruct x as [sx | sx | | sx mx ex]; destruct y as [sy | sy | | sy my ey];
    cbn [is_finite]; intros Hx Hy; try discriminate; try reflexivity.
  unfold mul, SFmul. now apply binary_round_aux_not_nan.
Qed.

Lemma div_core_nonneg (m1 m2 : positive) (e1 e2 : Z) :
  (0 <= fst (fst (SFdiv_core_binary prec emax (Z.pos m1) e1 (Z.pos m2) e2)))%Z.
Proof.
  unfold SFdiv_core_binary.
  set (s := (e1 - e2 - _)%Z).
  set (m' := match s with
             | Z0 => Z.pos m1
             | Z.pos _ => Z.shiftl (Z.pos m1) s
             | Z.neg _ => 0%Z
             end).
  assert (Hm' : (0 <= m')%Z).
  { unfold m'. destruct s; [lia | | lia]. apply Z.shiftl_nonneg. lia. }
  pose proof (Z_div_mod m' (Z.pos m2) eq_refl) as Hd.
  destruct (Z.div_eucl m' (Z.pos m2)) as [q r]. cbn [fst].
  destruct Hd as [Hd Hr]. nia.
Qed.

Lemma div_not_nan (x y : float64) (sy : bool) (my : positive) (ey : Z) :
  is_finite x = true -> y = S754_finite sy my ey -> is_nan (div x y) = false.
Proof.
  intros Hx ->. destruct x as [sx | sx | | sx mx ex]; cbn [is_finite] in Hx;
    try discriminate; [reflexivity | ].
  unfold div, SFdiv.
  pose proof (div_core_nonneg mx my ex ey) as H.
  destruct (SFdiv_core_binary prec emax (Z.pos mx) ex (Z.pos my) ey)
    as [[mz ez] lz]. cbn [fst] in H.
  now apply binary_round_aux_not_nan.
Qed.

Lemma int_quotient_not_nan (a b : Z) :
  b <> 0%Z -> is_nan (int_quotient a b) = false.
Proof.
  intros Hb. unfold int_quotient.
  destruct b as [ | p | p]; [contradiction | | ];
    (eapply div_not_nan; [ | reflexivity]); destruct a; reflexivity.
Qed.

End Binary64NoNaN.

(** The comparisons: without a NaN every pair is ordered. *)
Section Binary64Order.

Import Binary64.

Lemma SFcompare_antisym (x y : float64) (c : comparison) :
  SFcompare x y = Some c -> SFcompare y x = Some (CompOpp c).
Proof.
  destruct x as [sx | sx | | sx mx ex]; destruct y as [sy | sy | | sy my ey];
    cbn [SFcompare]; intros H; try discriminate;
    injection H as <-;
    try (destruct sx; reflexivity); try (destruct sy; reflexivity);
    try (destruct sx, sy; reflexivity).
  destruct sx, sy; try reflexivity;
    rewrite (Z.compare_antisym ex ey);
    destruct (ex ?= ey)%Z; cbn [CompOpp]; try reflexivity.
  - rewrite CompOpp_involutive.
    now rewrite (Pos.compare_cont_antisym my mx Eq).
  - now rewrite (Pos.compare_cont_antisym mx my Eq).
Qed.

Lemma SFcompare_total (x y : float64) :
  is_nan x = false -> is_nan y = false -> exists c, SFcompare x y = Some c.
Proof.
  destruct x, y; cbn; intros Hx Hy; try discriminate; eauto.
Qed.

(** [not (x <= y)] is [x > y]. *)
Lemma not_leb_iff_ltb (x y : float64) :
  is_nan x = false -> is_nan y = false ->
  (leb x y = false <-> ltb y x = true).
Proof.
  intros Hx Hy. destruct (SFcompare_total x y Hx Hy) as [c Hc].
  pose proof (SFcompare_antisym _ _ _ Hc) as Hc'.
  unfold leb, ltb, SFleb, SFltb. rewrite Hc, Hc'.
  destruct c; cbn [CompOpp]; split; congruence.
Qed.

(** Nothing above a number that is not below [a] is at most [a]. *)
Lemma ltb_leb_false (a b d : float64) :
  leb a b = true -> ltb b d = true -> leb d a = false.
Proof.
  unfold leb, ltb, SFleb, SFltb.
  destruct a as [sa | sa | | sa ma ea]; destruct b as [sb | sb | | sb mb eb];
    destruct d as [sd | sd | | sd md ed]; cbn [SFcompare];
    try discriminate; try reflexivity;
    try (destruct sa; discriminate); try (destruct sb; discriminate);
    try (destruct sd; discriminate);
    try (destruct sa; reflexivity); try (destruct sd; reflexivity);
    try (destruct sa, sb; discriminate); try (destruct sb, sd; discriminate);
    try (destruct sa, sd; reflexivity);
    try (destruct sa, sb, sd; try discriminate; reflexivity).
  destruct sa, sb, sd; try discriminate; try reflexivity;
    unfold Pos.compare_cont; fold Pos.compare_cont;
    change (Pos.compare_cont Eq) with Pos.compare;
    destruct (Z.compare_spec ea eb); destruct (Z.compare_spec eb ed);
    destruct (Z.compare_spec ed ea); try discriminate; try reflexivity;
    try lia; subst;
    destruct (Pos.compare_spec ma mb); destruct (Pos.compare_spec mb md);
    destruct (Pos.compare_spec md ma); cbn [CompOpp];
    try discriminate; try reflexivity; try lia.
Qed.

Lemma classify_feasibility_spec64 (d : float64) :
  is_nan d = false ->
  (classify_feasibility d = VeryShort <-> le d 7 = true) /\
  (classify_feasibility d = Short <-> gt d 7 = true /\ le d 14 = true) /\
  (classify_feasibility d = Moderate <-> gt d 14 = true /\ le d 30 = true) /\
  (classify_feasibility d = Long <-> gt d 30 = true).
Proof.
  intros Hd. unfold classify_feasibility, le, gt.
  pose proof (not_leb_iff_ltb d (of_int 7) Hd (of_int_not_nan 7)) as H7.
  pose proof (not_leb_iff_ltb d (of_int 14) Hd (of_int_not_nan 14)) as H14.
  pose proof (not_leb_iff_ltb d (of_int 30) Hd (of_int_not_nan 30)) as H30.
  pose proof (ltb_leb_false (of_int 7) (of_int 14) d eq_refl) as T1.
  pose proof (ltb_leb_false (of_int 14) (of_int 30) d eq_refl) as T2.
  pose proof (ltb_leb_false (of_int 7) (of_int 30) d eq_refl) as T3.
  revert H7 H14 H30 T1 T2 T3.
  generalize (leb d (of_int 7)) (leb d (of_int 14)) (leb d (of_int 30))
             (ltb (of_int 7) d) (ltb (of_int 14) d) (ltb (of_int 30) d).
  intros [] [] [] [] [] []; intros; repeat split; intros;
    try discriminate; try reflexivity; try tauto; try intuition congruence.
Qed.

Lemma classify_traffic_spec64 (s : float64) :
  is_nan s = false ->
  (classify_traffic s = Excellent <-> le s 25 = true) /\
  (classify_traffic s = Good <-> gt s 25 = true /\ le s 50 = true) /\
  (classify_traffic s = Challenging <-> gt s 50 = true /\ le s 75 = true) /\
  (classify_traffic s = InsufficientTraffic <-> gt s 75 = true).
Proof.
  intros Hd. unfold classify_traffic, le, gt.
  pose proof (not_leb_iff_ltb s (of_int 25) Hd (of_int_not_nan 25)) as H7.
  pose proof (not_leb_iff_ltb s (of_int 50) Hd (of_int_not_nan 50)) as H14.
  pose proof (not_leb_iff_ltb s (of_int 75) Hd (of_int_not_nan 75)) as H30.
  pose proof (ltb_leb_false (of_int 25) (of_int 50) s eq_refl) as T1.
  pose proof (ltb_leb_false (of_int 50) (of_int 75) s eq_refl) as T2.
  pose proof (ltb_leb_false (of_int 25) (of_int 75) s eq_refl) as T3.
  revert H7 H14 H30 T1 T2 T3.
  generalize (leb s (of_int 25)) (leb s (of_int 50)) (leb s (of_int 75))
             (ltb (of_int 25) s) (ltb (of_int 50) s) (ltb (of_int 75) s).
  intros [] [] [] [] [] []; intros; repeat split; intros;
    try discriminate; try reflexivity; try tauto; try intuition congruence.
Qed.

End Binary64Order.

(** ** The sample size function on binary64 *)

Section Binary64SampleSize.

Import Binary64.

Variable self : PowerAnalysisCalculator.

Lemma quotient_outcome (mde : float64) :
  quotient self mde = Ok (div (numerator self) (mul mde mde)) \/
  quotient self mde = Raise OverflowError.
Proof.
  unfold quotient.
  destruct (pow2_outcome mde) as [-> | ->]; cbn [bind]; auto.
Qed.

(** The outcomes of [calculate_sample_size]: the ceiling of a finite
    quotient, [ValueError] for a NaN quotient, [OverflowError] for an
    infinite one and for a square that overflows. *)
Lemma calculate_sample_size_outcome (mde : float64) :
  (forall n,
     calculate_sample_size self mde = Ok n <->
     exists q v,
       quotient self mde = Ok q /\ value q = Some v /\ is_ceiling v n) /\
  (calculate_sample_size self mde = Raise ValueError <->
     quotient self mde = Ok S754_nan) /\
  (calculate_sample_size self mde = Raise OverflowError <->
     quotient self mde = Raise OverflowError \/
     exists s, quotient self mde = Ok (S754_infinity s)) /\
  (forall e,
     calculate_sample_size self mde = Raise e ->
     e = OverflowError \/ e = ValueError).
Proof.
  unfold calculate_sample_size.
  destruct (quotient_outcome mde) as [Hq | Hq]; rewrite Hq; cbn [bind].
  - set (q := div (numerator self) (mul mde mde)).
    destruct (value q) as [v | ] eqn:Hv.
    + rewrite (int_np_ceil q v Hv).
      split; [ | split; [ | split]].
      * intros n. split.
        -- intros H. injection H as <-. exists q, v.
           repeat split; try assumption; apply Qceiling_is_ceiling.
        -- intros [q' [v' [E [Hv' Hc]]]]. injection E as <-.
           rewrite Hv in Hv'. injection Hv' as <-. f_equal.
           apply (is_ceiling_unique v); [apply Qceiling_is_ceiling | exact Hc].
      * split; [discriminate | ]. intros E. injection E as E.
        rewrite E in Hv. discriminate.
      * split; [discriminate | ].
        intros [E | [s E]]; [discriminate | ].
        injection E as E. rewrite E in Hv. discriminate.
      * discriminate.
    + rewrite (int_np_ceil_not_finite q Hv).
      split; [ | split; [ | split]].
      * intros n. split; [destruct (is_nan q); discriminate | ].
        intros [q' [v' [E [Hv' _]]]]. injection E as <-. congruence.
      * destruct q; try discriminate; cbn [is_nan]; split;
          try discriminate; try reflexivity.
      * destruct q; try discriminate; cbn [is_nan]; split;
          try discriminate; try reflexivity; eauto.
        intros [E | [s' E]]; discriminate.
      * intros e. destruct (is_nan q); intros E; injection E as <-; auto.
  - split; [ | split; [ | split]].
    + intros n. split; [discriminate | ].
      intros [q [v [E _]]]. discriminate.
    + split; discriminate.
    + split; auto.
    + intros e E. injection E as <-. auto.
Qed.


Lemma calculate_sample_size_zero_mde (mde : float64) :
  is_zero mde = true ->
  calculate_sample_size self mde =
    Raise (if is_zero (numerator self) || is_nan (numerator self)
           then ValueError else OverflowError).
Proof.
  intros Hz. unfold calculate_sample_size, quotient.
  rewrite (pow2_zero mde Hz). cbn [bind]. apply int_np_ceil_div_zero.
Qed.

End Binary64SampleSize.

(** ** Claims about construction and the sample size *)



(** C2, as the specification states it, fails: the constructor accepts a
    baseline rate of 0 and of 1, an alpha of 0, a power of 1, a single
    variant, a monthly population of 0 and negative values, and the sample
    size is then computed (it is 0 for a baseline rate of 0). *)
Lemma init_accepts_invalid_parameters :
  (exists self,
     Binary64.__init__ norm_ppf_table64 (Binary64.dec 0 0) 100000 2
                       (Binary64.dec 8 (-1)) (Binary64.dec 5 (-2)) = Ok self /\
     Binary64.calculate_sample_size self (Binary64.dec 1 (-1)) = Ok 0%Z) /\
  (exists self,
     Binary64.__init__ norm_ppf_table64 (Binary64.dec 1 0) 100000 2
                       (Binary64.dec 8 (-1)) (Binary64.dec 5 (-2)) = Ok self) /\
  (exists self,
     Binary64.__init__ norm_ppf_table64 (Binary64.dec 5 (-2)) 100000 2
                       (Binary64.dec 8 (-1)) (Binary64.dec 0 0) = Ok self /\
     Binary64.z_alpha_2 self = S754_infinity false) /\
  (exists self,
     Binary64.__init__ norm_ppf_table64 (Binary64.dec 5 (-2)) 100000 2
                       (Binary64.dec 1 0) (Binary64.dec 5 (-2)) = Ok self /\
     Binary64.z_beta self = S754_infinity false) /\
  (exists self,
     Binary64.__init__ norm_ppf_table64 (Binary64.dec 5 (-2)) 100000 1
                       (Binary64.dec 8 (-1)) (Binary64.dec 5 (-2)) = Ok self) /\
  (exists self,
     Binary64.__init__ norm_ppf_table64 (Binary64.dec 5 (-2)) 0 2
                       (Binary64.dec 8 (-1)) (Binary64.dec 5 (-2)) = Ok self) /\
  (exists self,
     Binary64.__init__ norm_ppf_table64 (Binary64.dec (-5) (-2)) (-100000) (-2)
                       (Binary64.dec (-8) (-1)) (Binary64.dec (-5) (-2))
       = Ok self).
Proof.
  split; [eexists; split; [reflexivity | vm_compute; reflexivity] | ].
  split; [eexists; reflexivity | ].
  split; [eexists; split; [reflexivity | vm_compute; reflexivity] | ].
  split; [eexists; split; [reflexivity | vm_compute; reflexivity] | ].
  split; [eexists; reflexivity | ].
  split; [eexists; reflexivity | ].
  eexists; reflexivity.
Qed.

(** C2, amended.  Construction performs no validation and never fails:
    whatever the five inputs and whatever the quantile function answers, it
    returns the object that stores the inputs unchanged, with
    [z_alpha_2 = ppf (1 - alpha/2)], [z_beta = ppf power] and no frame. *)
Theorem init_never_fails
  (ppf : Binary64.float64 -> Binary64.float64)
  (b : Binary64.float64) (m v : Z) (pw a : Binary64.float64) :
  exists self,
    Binary64.__init__ ppf b m v pw a = Ok self /\
    Binary64.baseline_rate self = b /\
    Binary64.monthly_population self = m /\
    Binary64.num_variants self = v /\
    Binary64.power self = pw /\
    Binary64.alpha self = a /\
    Binary64.z_alpha_2 self =
      ppf (Binary64.sub (Binary64.of_int 1)
                        (Binary64.div a (Binary64.of_int 2))) /\
    Binary64.z_beta self = ppf pw /\
    Binary64.results_df self = None.
Proof.
  eexists. split; [reflexivity | ]. repeat split.
Qed.







(** C8, as the specification states it, fails: for baseline 0.05, 100000
    units, 2 variants, power 0.8, alpha 0.05 and an MDE of 0.10 the sample
    size is the ceiling of the quoted expression, but that ceiling is 75; it
    is not 1492, and not within a thousand of it. *)
Lemma worked_example_is_not_1492 :
  calculate_sample_size
    (mkCalc (5 # 100) 100000 2 (8 # 10) (5 # 100)
            z_alpha_2_example z_beta_example None) (inject_Z 10 / 100)
    = Ok (Qceiling example_expression) /\
  calculate_sample_size default_calculator (inject_Z 10 / 100) = Ok 75%Z /\
  Qceiling example_expression = 75%Z /\
  ~ (492 <= Qceiling example_expression <= 2492)%Z.
Proof.
  repeat split; try (vm_compute; reflexivity).
  vm_compute. intros [H _]. apply H. reflexivity.
Qed.

(** C8, amended.  For baseline 0.05, 100000 units, 2 variants, power 0.8,
    alpha 0.05 and any quantile function that agrees with 1.959964 and
    0.841621 to six decimals, construction succeeds and the sample size at an
    MDE of 0.10 is 75, which is also the ceiling of
    [2*(1.959964+0.841621)^2*0.05*0.95/0.01]. *)
Theorem worked_example_sample_size (ppf : Q -> Q) (mde : Q) :
  Qabs (ppf (1 - (5 # 100) / 2) - z_alpha_2_example) <= 1 # 1000000 ->
  Qabs (ppf (8 # 10) - z_beta_example) <= 1 # 1000000 ->
  mde == 1 # 10 ->
  exists self,
    __init__ ppf (5 # 100) 100000 2 (8 # 10) (5 # 100) = Ok self /\
    calculate_sample_size self mde = Ok 75%Z /\
    Qceiling example_expression = 75%Z.
Proof.
  intros Ha Hb Hm.
  eexists. split; [reflexivity | ].
  split; [ | vm_compute; reflexivity].
  rewrite calculate_sample_size_nonzero by (rewrite Hm; discriminate).
  f_equal. apply Qceiling_eq.
  unfold formula_of, sample_size_formula, is_ceiling.
  cbn [z_alpha_2 z_beta baseline_rate].
  apply Qabs_Qle_condition in Ha, Hb.
  unfold z_alpha_2_example in Ha. unfold z_beta_example in Hb.
  set (za := ppf (1 - (5 # 100) / 2)) in *.
  set (zb := ppf (8 # 10)) in *.
  assert (Hlo : 2801583 # 1000000 <= za + zb) by lra.
  assert (Hhi : za + zb <= 2801587 # 1000000) by lra.
  set (s := za + zb) in *.
  assert (Hs2lo : (2801583 # 1000000) * (2801583 # 1000000) <= s ^ 2) by nra.
  assert (Hs2hi : s ^ 2 <= (2801587 # 1000000) * (2801587 # 1000000)) by nra.
  assert (Hd : 0 < mde ^ 2) by (rewrite Hm; reflexivity).
  assert (Hd' : mde ^ 2 == 1 # 100) by (rewrite Hm; reflexivity).
  clear Hlo Hhi. set (t := s ^ 2) in *. clearbody t.
  split.
  - apply Qlt_shift_div_l; [exact Hd | ]. rewrite Hd'.
    change (inject_Z 75 - 1) with 74. lra.
  - apply Qle_shift_div_r; [exact Hd | ]. rewrite Hd'.
    change (inject_Z 75) with 75. lra.
Qed.

Lemma worked_example_sample_size_witness :
  Qabs (norm_ppf_table (1 - (5 # 100) / 2) - z_alpha_2_example) <= 1 # 1000000 /\
  Qabs (norm_ppf_table (8 # 10) - z_beta_example) <= 1 # 1000000 /\
  inject_Z 10 / 100 == 1 # 10 /\
  exists self,
    __init__ norm_ppf_table (5 # 100) 100000 2 (8 # 10) (5 # 100) = Ok self /\
    calculate_sample_size self (inject_Z 10 / 100) = Ok 75%Z /\
    Qceiling example_expression = 75%Z.
Proof.
  assert (Ha : Qabs (norm_ppf_table (1 - (5 # 100) / 2) - z_alpha_2_example)
               <= 1 # 1000000) by (vm_compute; discriminate).
  assert (Hb : Qabs (norm_ppf_table (8 # 10) - z_beta_example) <= 1 # 1000000)
    by (vm_compute; discriminate).
  assert (Hm : inject_Z 10 / 100 == 1 # 10) by reflexivity.
  split; [exact Ha | ].
  split; [exact Hb | ].
  split; [exact Hm | ].
  exact (worked_example_sample_size norm_ppf_table (inject_Z 10 / 100) Ha Hb Hm).
Defined.

(** ** The sweep *)

Section Rounding.



Lemma round_half_even_near (x : Q) :
  Qabs (inject_Z (Num.round_half_even x) - x) <= 1 # 2.
Proof.
  unfold Num.round_half_even.
  pose proof (Qfloor_le x) as Hlo.
  pose proof (Qlt_floor x) as Hhi.
  rewrite inject_Z_plus in Hhi. change (inject_Z 1) with 1 in Hhi.
  apply Qabs_Qle_condition.
  destruct (x - inject_Z (Qfloor x) ?= 1 # 2) eqn:E.
  - apply Qeq_alt in E.
    destruct (Z.even (Qfloor x));
      [ | rewrite inject_Z_plus; change (inject_Z 1) with 1]; lra.
  - apply Qlt_alt in E. lra.
  - apply Qgt_alt in E. rewrite inject_Z_plus. change (inject_Z 1) with 1.
    lra.
Qed.

Lemma round_2_decimals (x : Q) : rounded_to_2_decimals x (Num.round x 2).
Proof.
  split.
  - exists (Num.round_half_even (x * inject_Z 100)). reflexivity.
  - unfold Num.round. change (inject_Z (10 ^ Z.of_nat 2)) with 100.
    pose proof (round_half_even_near (x * 100)) as H.
    apply Qabs_Qle_condition in H. apply Qabs_Qle_condition.
    set (k := inject_Z (Num.round_half_even (x * 100))) in *.
    clearbody k.
    assert (E : k / 100 - x == (k - x * 100) / 100) by field.
    rewrite E. split.
    + apply Qle_shift_div_l; [reflexivity | lra].
    + apply Qle_shift_div_r; [reflexivity | lra].
Qed.

End Rounding.

Section Classification.

Lemma classify_feasibility_spec (d : Q) :
  (classify_feasibility d = VeryShort <-> d <= 7) /\
  (classify_feasibility d = Short <-> 7 < d /\ d <= 14) /\
  (classify_feasibility d = Moderate <-> 14 < d /\ d <= 30) /\
  (classify_feasibility d = Long <-> 30 < d).
Proof.
  unfold classify_feasibility.
  destruct (Qle_bool d 7) eqn:E7; [ | destruct (Qle_bool d 14) eqn:E14;
    [ | destruct (Qle_bool d 30) eqn:E30]];
  repeat match goal with
         | H : Qle_bool _ _ = true |- _ => apply Qle_bool_iff in H
         | H : Qle_bool ?a ?b = false |- _ =>
             assert (b < a)
               by (apply Qnot_le_lt; intros C; apply Qle_bool_iff in C;
                   congruence);
             clear H
         end;
  repeat split; intros; try discriminate; try reflexivity; try lra.
Qed.

Lemma classify_traffic_spec (s : Q) :
  (classify_traffic s = Excellent <-> s <= 25) /\
  (classify_traffic s = Good <-> 25 < s /\ s <= 50) /\
  (classify_traffic s = Challenging <-> 50 < s /\ s <= 75) /\
  (classify_traffic s = InsufficientTraffic <-> 75 < s).
Proof.
  unfold classify_traffic.
  destruct (Qle_bool s 25) eqn:E25; [ | destruct (Qle_bool s 50) eqn:E50;
    [ | destruct (Qle_bool s 75) eqn:E75]];
  repeat match goal with
         | H : Qle_bool _ _ = true |- _ => apply Qle_bool_iff in H
         | H : Qle_bool ?a ?b = false |- _ =>
             assert (b < a)
               by (apply Qnot_le_lt; intros C; apply Qle_bool_iff in C;
                   congruence);
             clear H
         end;
  repeat split; intros; try discriminate; try reflexivity; try lra.
Qed.

End Classification.

Section Sweep.

Variable self : PowerAnalysisCalculator.

Lemma daily_population_nonzero :
  monthly_population self <> 0%Z ->
  ~ inject_Z (monthly_population self) / 30 == 0.
Proof.
  intros Hm H. apply Hm, (inject_Z_injective (monthly_population self) 0).
  setoid_replace (inject_Z (monthly_population self))
    with (inject_Z (monthly_population self) / 30 * 30) by field.
  rewrite H. reflexivity.
Qed.

Lemma monthly_population_nonzero :
  monthly_population self <> 0%Z ->
  ~ inject_Z (monthly_population self) == 0.
Proof.
  intros Hm H. apply Hm. now apply (inject_Z_injective _ 0).
Qed.

(** What a successful iteration has computed. *)
Lemma sweep_row_inv (m : Z) (r : Row) :
  sweep_row self m = Ok r ->
  exists n,
    calculate_sample_size self (inject_Z m / 100) = Ok n /\
    monthly_population self <> 0%Z /\
    r = row_of self m n.
Proof.
  unfold sweep_row. intros H.
  destruct (calculate_sample_size self (inject_Z m / 100)) as [n | e];
    [ | discriminate].
  exists n. split; [reflexivity | ].
  cbn [bind] in H.
  destruct (Z.eq_dec (monthly_population self) 0) as [E | E].
  - rewrite truediv_zero in H by (rewrite E; reflexivity). discriminate.
  - split; [exact E | ].
    rewrite truediv_nonzero in H by (now apply monthly_population_nonzero).
    cbn [bind] in H.
    rewrite truediv_nonzero in H by (now apply daily_population_nonzero).
    cbn [bind] in H. injection H as <-. reflexivity.
Qed.

(** The loop appends, in range order, one dictionary per element. *)
Lemma sweep_loop_inv (mde_range : list Z) :
  forall acc results,
    sweep_loop self mde_range acc = Ok results ->
    exists rs,
      results = acc ++ rs /\
      Forall2 (fun m r => sweep_row self m = Ok r) mde_range rs.
Proof.
  induction mde_range as [ | m rest IH]; intros acc results H.
  - exists []. injection H as <-. split; [now rewrite app_nil_r | constructor].
  - cbn [sweep_loop] in H.
    destruct (sweep_row self m) as [r | e] eqn:Er; [ | discriminate].
    cbn [bind] in H.
    destruct (IH _ _ H) as [rs [-> HF]].
    exists (r :: rs). split.
    + now rewrite <- app_assoc.
    + constructor; assumption.
Qed.

Lemma sweep_loop_rows (mde_range : list Z) (results : list Row) (r : Row) :
  sweep_loop self mde_range [] = Ok results ->
  In r results ->
  exists m, In m mde_range /\ sweep_row self m = Ok r.
Proof.
  intros H Hin.
  destruct (sweep_loop_inv _ _ _ H) as [rs [-> HF]]. cbn [app] in Hin.
  clear H. induction HF as [ | m r' ms rs' Hr _ IH]; [contradiction | ].
  destruct Hin as [<- | Hin].
  - exists m. split; [now left | exact Hr].
  - destruct (IH Hin) as [m' [Hm' Hr']]. exists m'. split; [now right | exact Hr'].
Qed.

End Sweep.

Lemma rows_DataFrame (results : list Row) : rows (pd.DataFrame results) = results.
Proof. destruct results; reflexivity. Qed.

(** The rows of a frame returned by [calculate_power_analysis] are the
    dictionaries of successful iterations over the range. *)
Lemma calculate_power_analysis_rows
  (self self' : PowerAnalysisCalculator) (mde_range : option (list Z))
  (df : DataFrame) (r : Row) :
  calculate_power_analysis self mde_range = Ok (self', df) ->
  In r (rows df) ->
  exists m n,
    calculate_sample_size self (inject_Z m / 100) = Ok n /\
    monthly_population self <> 0%Z /\
    r = row_of self m n.
Proof.
  unfold calculate_power_analysis. intros H Hin.
  match type of H with
  | bind (sweep_loop _ ?l _) _ = _ =>
      destruct (sweep_loop self l []) as [results | e] eqn:E; [ | discriminate]
  end.
  cbn [bind] in H. injection H as _ <-. rewrite rows_DataFrame in Hin.
  destruct (sweep_loop_rows _ _ _ _ E Hin) as [m [_ Hr]].
  destruct (sweep_row_inv _ _ _ Hr) as [n Hn]. eauto.
Qed.

(** ** Claims about the sweep *)

Lemma example_sweep :
  calculate_power_analysis default_calculator (Some [10%Z]) =
    Ok (set_results_df default_calculator example_frame, example_frame).
Proof. vm_compute. reflexivity. Qed.

(** *** The sweep on binary64 *)

Section Binary64Sweep.

Import Binary64.

Variable self : PowerAnalysisCalculator.

Lemma truediv_int_inv (a b : Z) (q : float64) :
  truediv_int a b = Ok q ->
  b <> 0%Z /\ q = int_quotient a b /\ is_inf q = false /\ is_nan q = false.
Proof.
  unfold truediv_int. destruct (Z.eqb_spec b 0) as [E | E]; [discriminate | ].
  destruct (is_inf (int_quotient a b)) eqn:Hi; [discriminate | ].
  intros H. injection H as <-.
  repeat split; try assumption. now apply int_quotient_not_nan.
Qed.

Lemma truediv_int_error (a b : Z) (e : PyError) :
  truediv_int a b = Raise e ->
  (e = ZeroDivisionError /\ b = 0%Z) \/ (e = OverflowError /\ b <> 0%Z).
Proof.
  unfold truediv_int. destruct (Z.eqb_spec b 0) as [E | E].
  - intros H. injection H as <-. auto.
  - destruct (is_inf (int_quotient a b)); [ | discriminate].
    intros H. injection H as <-. auto.
Qed.

Lemma float_of_int_inv (n : Z) (x : float64) :
  float_of_int n = Ok x -> x = of_int n /\ is_finite x = true.
Proof.
  unfold float_of_int. destruct (is_inf (of_int n)) eqn:Hi; [discriminate | ].
  intros H. injection H as <-. split; [reflexivity | ].
  pose proof (of_int_not_nan n) as Hn.
  destruct (of_int n); try discriminate; reflexivity.
Qed.

Lemma truediv_inv (x y z : float64) :
  truediv x y = Ok z -> is_zero y = false /\ z = div x y.
Proof.
  unfold truediv. destruct (is_zero y); [discriminate | ].
  intros H. injection H as <-. auto.
Qed.

(** What a record of the sweep is made of. *)
Lemma sweep_row_inv64 (m : Z) (r : Row) :
  sweep_row self m = Ok r ->
  exists n,
    calculate_sample_size self (int_quotient m 100) = Ok n /\
    monthly_population self <> 0%Z /\
    let total := (n * num_variants self)%Z in
    let share := int_quotient total (monthly_population self) in
    let daily := int_quotient (monthly_population self) 30 in
    let d := div (of_int total) daily in
    let s := mul share (of_int 100) in
    is_nan d = false /\ is_nan s = false /\
    r = mkRow m (int_quotient m 100) n total
              (round s 2) (round d 2) (round (div d (of_int 7)) 2)
              (classify_feasibility d) (classify_traffic s).
Proof.
  unfold sweep_row. intros H.
  destruct (truediv_int m 100) as [mde | e] eqn:Hmde; [ | discriminate].
  cbn [bind] in H.
  destruct (truediv_int_inv _ _ _ Hmde) as [_ [-> _]].
  destruct (calculate_sample_size self (int_quotient m 100)) as [n | e]
    eqn:Hn; [ | discriminate].
  cbn [bind] in H.
  destruct (truediv_int (n * num_variants self) (monthly_population self))
    as [share | e] eqn:Hshare; [ | discriminate].
  cbn [bind] in H.
  destruct (truediv_int_inv _ _ _ Hshare) as [Hmp [Eshare [Hsi Hsn]]].
  destruct (truediv_int (monthly_population self) 30) as [daily | e]
    eqn:Hdaily; [ | discriminate].
  cbn [bind] in H.
  destruct (truediv_int_inv _ _ _ Hdaily) as [_ [Edaily [Hdi Hdn]]].
  destruct (float_of_int (n * num_variants self)) as [total | e] eqn:Htotal;
    [ | discriminate].
  cbn [bind] in H.
  destruct (float_of_int_inv _ _ Htotal) as [Etotal Htf].
  destruct (truediv total daily) as [d | e] eqn:Hd; [ | discriminate].
  cbn [bind] in H.
  destruct (truediv_inv _ _ _ Hd) as [Hdz Ed].
  injection H as <-.
  exists n. split; [reflexivity | ]. split; [exact Hmp | ].
  cbn zeta. subst share d. rewrite <- Edaily, <- Etotal.
  split; [ | split; [ | reflexivity]].
  - destruct daily as [sd | sd | | sd md ed]; try discriminate.
    eapply div_not_nan; [exact Htf | reflexivity].
  - apply mul_not_nan; [ | reflexivity].
    destruct (int_quotient (n * num_variants self) (monthly_population self));
      try discriminate; reflexivity.
Qed.

Lemma sweep_row_error64 (m : Z) (e : PyError) :
  sweep_row self m = Raise e ->
  e = ZeroDivisionError \/ e = OverflowError \/ e = ValueError.
Proof.
  unfold sweep_row. intros H.
  destruct (truediv_int m 100) as [mde | e1] eqn:Hmde.
  2:{ cbn [bind] in H. injection H as <-.
      destruct (truediv_int_error _ _ _ Hmde) as [[-> _] | [-> _]]; auto. }
  cbn [bind] in H.
  destruct (calculate_sample_size self mde) as [n | e1] eqn:Hn.
  2:{ cbn [bind] in H. injection H as <-.
      destruct (proj2 (proj2 (proj2 (calculate_sample_size_outcome self mde)))
                  _ Hn) as [-> | ->]; auto. }
  cbn [bind] in H.
  destruct (truediv_int (n * num_variants self) (monthly_population self))
    as [share | e1] eqn:Hshare.
  2:{ cbn [bind] in H. injection H as <-.
      destruct (truediv_int_error _ _ _ Hshare) as [[-> _] | [-> _]]; auto. }
  cbn [bind] in H.
  destruct (truediv_int (monthly_population self) 30) as [daily | e1]
    eqn:Hdaily.
  2:{ cbn [bind] in H. injection H as <-.
      destruct (truediv_int_error _ _ _ Hdaily) as [[-> _] | [-> _]]; auto. }
  cbn [bind] in H.
  unfold float_of_int in H.
  destruct (is_inf (of_int (n * num_variants self))).
  { cbn [bind] in H. injection H as <-. auto. }
  cbn [bind] in H. unfold truediv in H.
  destruct (is_zero daily).
  { cbn [bind] in H. injection H as <-. auto. }
  discriminate.
Qed.

(** An MDE of 0 stops the loop body in the sample size function. *)
Lemma sweep_row_zero_mde64 : exists e,
  sweep_row self 0 = Raise e /\ (e = OverflowError \/ e = ValueError).
Proof.
  unfold sweep_row.
  change (truediv_int 0 100) with (Ok (S754_zero false)). cbn [bind].
  rewrite (calculate_sample_size_zero_mde self (S754_zero false) eq_refl).
  destruct (is_zero (numerator self) || is_nan (numerator self));
    cbn [bind]; eauto.
Qed.

Lemma sweep_loop_inv64 (mde_range : list Z) :
  forall acc results,
    sweep_loop self mde_range acc = Ok results ->
    exists rs, results = acc ++ rs /\
               Forall2 (fun m r => sweep_row self m = Ok r) mde_range rs.
Proof.
  induction mde_range as [ | m ms IH]; intros acc results H;
    cbn [sweep_loop] in H.
  - injection H as <-. exists []. rewrite app_nil_r. auto.
  - destruct (sweep_row self m) as [r | e] eqn:Hr; [ | discriminate].
    cbn [bind] in H. destruct (IH _ _ H) as [rs [-> HF]].
    exists (r :: rs). rewrite <- app_assoc. auto.
Qed.

Lemma sweep_loop_error64 (mde_range : list Z) :
  forall acc e,
    sweep_loop self mde_range acc = Raise e ->
    exists m, In m mde_range /\ sweep_row self m = Raise e.
Proof.
  induction mde_range as [ | m ms IH]; intros acc e H; cbn [sweep_loop] in H.
  - discriminate.
  - destruct (sweep_row self m) as [r | e'] eqn:Hr.
    + cbn [bind] in H. destruct (IH _ _ H) as [m' [Hin Hm']].
      exists m'. split; [now right | exact Hm'].
    + cbn [bind] in H. injection H as <-. exists m. split; [now left | exact Hr].
Qed.

End Binary64Sweep.

Lemma Forall2_In_r {A B : Type} (P : A -> B -> Prop) (l : list A) (l' : list B)
  (b : B) :
  Forall2 P l l' -> In b l' -> exists a, In a l /\ P a b.
Proof.
  induction 1 as [ | x y xs ys Hxy _ IH]; intros Hin; [contradiction | ].
  destruct Hin as [<- | Hin].
  - exists x. split; [now left | exact Hxy].
  - destruct (IH Hin) as [a [Ha Hp]]. exists a. split; [now right | exact Hp].
Qed.

Lemma Forall2_In_l {A B : Type} (P : A -> B -> Prop) (l : list A) (l' : list B)
  (a : A) :
  Forall2 P l l' -> In a l -> exists b, In b l' /\ P a b.
Proof.
  induction 1 as [ | x y xs ys Hxy _ IH]; intros Hin; [contradiction | ].
  destruct Hin as [<- | Hin].
  - exists y. split; [now left | exact Hxy].
  - destruct (IH Hin) as [b [Hb Hp]]. exists b. split; [now right | exact Hp].
Qed.

Lemma rows_pd_DataFrame (results : list Binary64.Row) :
  Binary64.rows (Binary64.pd_DataFrame results) = results.
Proof. destruct results; reflexivity. Qed.

(** A returned sweep has one successful iteration per element of its range,
    in order. *)
Lemma calculate_power_analysis_rows64
  (self self' : Binary64.PowerAnalysisCalculator)
  (mde_range : option (list Z)) (df : Binary64.DataFrame) :
  Binary64.calculate_power_analysis self mde_range = Ok (self', df) ->
  self' = Binary64.set_results_df self df /\
  Forall2 (fun m r => Binary64.sweep_row self m = Ok r)
          (match mde_range with
           | None => Num.range 1 31
           | Some l => l
           end) (Binary64.rows df).
Proof.
  unfold Binary64.calculate_power_analysis. intros H.
  match type of H with
  | bind (Binary64.sweep_loop _ ?l _) _ = _ =>
      destruct (Binary64.sweep_loop self l []) as [results | e] eqn:E;
        [ | discriminate]
  end.
  cbn [bind] in H. injection H as <- <-. split; [reflexivity | ].
  destruct (sweep_loop_inv64 _ _ _ _ E) as [rs [-> HF]].
  cbn [app]. now rewrite rows_pd_DataFrame.
Qed.

(** Every record of a returned sweep is the loop body's record for its
    MDE. *)
Lemma sweep_record_inv64
  (self self' : Binary64.PowerAnalysisCalculator)
  (mde_range : option (list Z)) (df : Binary64.DataFrame) (r : Binary64.Row) :
  Binary64.calculate_power_analysis self mde_range = Ok (self', df) ->
  In r (Binary64.rows df) ->
  Binary64.monthly_population self <> 0%Z /\
  Binary64.is_nan (unrounded_duration_days self r) = false /\
  Binary64.is_nan (unrounded_population_split self r) = false /\
  Binary64.calculate_sample_size self (Binary64.MDE_Decimal r) =
    Ok (Binary64.Sample_Size_Per_Variant r) /\
  Binary64.MDE_Decimal r = Binary64.int_quotient (Binary64.MDE_Percent r) 100 /\
  Binary64.Total_Sample_Size r =
    (Binary64.Sample_Size_Per_Variant r * Binary64.num_variants self)%Z /\
  Binary64.Population_Split_Percent r =
    Binary64.round (unrounded_population_split self r) 2 /\
  Binary64.Duration_Days r =
    Binary64.round (unrounded_duration_days self r) 2 /\
  Binary64.Duration_Weeks r =
    Binary64.round (Binary64.div (unrounded_duration_days self r)
                                 (Binary64.of_int 7)) 2 /\
  Binary64.Feasibility r =
    Binary64.classify_feasibility (unrounded_duration_days self r) /\
  Binary64.Traffic_Assessment r =
    Binary64.classify_traffic (unrounded_population_split self r).
Proof.
  intros H Hin.
  destruct (calculate_power_analysis_rows64 _ _ _ _ H) as [_ HF].
  destruct (Forall2_In_r _ _ _ _ HF Hin) as [m [_ Hr]].
  destruct (sweep_row_inv64 _ _ _ Hr) as [n [Hn [Hmp Hrest]]].
  cbn zeta in Hrest. destruct Hrest as [Hd [Hs ->]].
  unfold unrounded_duration_days, unrounded_population_split.
  cbn [Binary64.Total_Sample_Size Binary64.MDE_Decimal
       Binary64.Sample_Size_Per_Variant Binary64.MDE_Percent
       Binary64.Population_Split_Percent Binary64.Duration_Days
       Binary64.Duration_Weeks Binary64.Feasibility
       Binary64.Traffic_Assessment].
  repeat split; auto.
Qed.

Lemma boundary_sweep :
  Binary64.calculate_power_analysis (calculator64 306 2) (Some [7%Z]) =
    Ok (Binary64.set_results_df (calculator64 306 2)
          (Binary64.pd_DataFrame [boundary_row]),
        Binary64.pd_DataFrame [boundary_row]).
Proof. vm_compute. reflexivity. Qed.

(** C5, as the specification states it, fails.  With a monthly population
    of 306 and two variants the sweep over [[7]] needs 306 units: the exact
    duration is 30 days and the record stores 30.0, yet the record is
    labelled Long, because the duration that the loop computes is the double
    next above 30.  With a monthly population of 63900 the sweep over [[1]]
    stores a duration of 7.0 in a record labelled Short. *)
Lemma boundary_duration_is_long :
  Binary64.calculate_power_analysis (calculator64 306 2) (Some [7%Z]) =
    Ok (Binary64.set_results_df (calculator64 306 2)
          (Binary64.pd_DataFrame [boundary_row]),
        Binary64.pd_DataFrame [boundary_row]) /\
  Binary64.Feasibility boundary_row = Long /\
  inject_Z (Binary64.Total_Sample_Size boundary_row) /
    (inject_Z (Binary64.monthly_population (calculator64 306 2)) / 30) == 30 /\
  (exists v, Binary64.value (Binary64.Duration_Days boundary_row) = Some v /\
             v == 30) /\
  (exists v,
     Binary64.value (unrounded_duration_days (calculator64 306 2) boundary_row)
       = Some v /\
     v == 30 + (1 # 2 ^ 48)) /\
  Binary64.calculate_power_analysis (calculator64 63900 2) (Some [1%Z]) =
    Ok (Binary64.set_results_df (calculator64 63900 2)
          (Binary64.pd_DataFrame [rounded_row]),
        Binary64.pd_DataFrame [rounded_row]) /\
  Binary64.Feasibility rounded_row = Short /\
  (exists v, Binary64.value (Binary64.Duration_Days rounded_row) = Some v /\
             v == 7).
Proof.
  split; [exact boundary_sweep | ].
  split; [reflexivity | ].
  split; [reflexivity | ].
  split; [exists (8444249301319680 # 2 ^ 48);
          split; [vm_compute; reflexivity | reflexivity] | ].
  split; [exists (8444249301319681 # 2 ^ 48);
          split; [vm_compute; reflexivity | reflexivity] | ].
  split; [vm_compute; reflexivity | ].
  split; [reflexivity | ].
  exists (7881299347898368 # 2 ^ 50).
  split; [vm_compute; reflexivity | reflexivity].
Qed.

(** C5, amended.  In every record that the sweep produces, with
    [duration_days] and [population_split_percent] the doubles that the loop
    body computes before rounding, [total / (monthly_population / 30)] and
    [(total / monthly_population) * 100]: the feasibility is Very Short iff
    [duration_days <= 7], Short iff [7 < duration_days <= 14], Moderate iff
    [14 < duration_days <= 30] and Long iff [duration_days > 30]; the traffic
    assessment is Excellent iff the split is at most 25, Good iff it is in
    (25,50], Challenging iff it is in (50,75] and Insufficient Traffic above
    75.  Neither quantity is a NaN, so the buckets leave no gap, and the
    doubles 7, 14, 30 and 25, 50, 75 themselves fall in the lower bucket.
    The record stores these quantities rounded to two decimals, after the
    classification. *)
Theorem sweep_record_buckets
  (self self' : Binary64.PowerAnalysisCalculator)
  (mde_range : option (list Z)) (df : Binary64.DataFrame) (r : Binary64.Row) :
  Binary64.calculate_power_analysis self mde_range = Ok (self', df) ->
  In r (Binary64.rows df) ->
  let duration_days := unrounded_duration_days self r in
  let population_split_percent := unrounded_population_split self r in
  ((Binary64.Feasibility r = VeryShort <->
      Binary64.le duration_days 7 = true) /\
   (Binary64.Feasibility r = Short <->
      Binary64.gt duration_days 7 = true /\
      Binary64.le duration_days 14 = true) /\
   (Binary64.Feasibility r = Moderate <->
      Binary64.gt duration_days 14 = true /\
      Binary64.le duration_days 30 = true) /\
   (Binary64.Feasibility r = Long <-> Binary64.gt duration_days 30 = true)) /\
  ((Binary64.Traffic_Assessment r = Excellent <->
      Binary64.le population_split_percent 25 = true) /\
   (Binary64.Traffic_Assessment r = Good <->
      Binary64.gt population_split_percent 25 = true /\
      Binary64.le population_split_percent 50 = true) /\
   (Binary64.Traffic_Assessment r = Challenging <->
      Binary64.gt population_split_percent 50 = true /\
      Binary64.le population_split_percent 75 = true) /\
   (Binary64.Traffic_Assessment r = InsufficientTraffic <->
      Binary64.gt population_split_percent 75 = true)) /\
  (Binary64.is_nan duration_days = false /\
   Binary64.is_nan population_split_percent = false) /\
  (Binary64.classify_feasibility (Binary64.of_int 7) = VeryShort /\
   Binary64.classify_feasibility (Binary64.of_int 14) = Short /\
   Binary64.classify_feasibility (Binary64.of_int 30) = Moderate) /\
  (Binary64.classify_traffic (Binary64.of_int 25) = Excellent /\
   Binary64.classify_traffic (Binary64.of_int 50) = Good /\
   Binary64.classify_traffic (Binary64.of_int 75) = Challenging) /\
  (Binary64.Duration_Days r = Binary64.round duration_days 2 /\
   Binary64.Population_Split_Percent r =
     Binary64.round population_split_percent 2).
Proof.
  intros H Hin d s.
  destruct (sweep_record_inv64 _ _ _ _ _ H Hin)
    as [_ [Hd [Hs [_ [_ [_ [Es [Ed [_ [Ef Et]]]]]]]]]].
  fold d in Hd, Ed, Ef. fold s in Hs, Es, Et.
  rewrite Ef, Et.
  split; [exact (classify_feasibility_spec64 d Hd) | ].
  split; [exact (classify_traffic_spec64 s Hs) | ].
  split; [split; assumption | ].
  split; [repeat split; vm_compute; reflexivity | ].
  split; [repeat split; vm_compute; reflexivity | ].
  split; assumption.
Qed.

Lemma sweep_record_buckets_witness :
  Binary64.calculate_power_analysis (calculator64 306 2) (Some [7%Z]) =
    Ok (Binary64.set_results_df (calculator64 306 2)
          (Binary64.pd_DataFrame [boundary_row]),
        Binary64.pd_DataFrame [boundary_row]) /\
  In boundary_row (Binary64.rows (Binary64.pd_DataFrame [boundary_row])) /\
  (Binary64.Feasibility boundary_row = Long <->
   Binary64.gt (unrounded_duration_days (calculator64 306 2) boundary_row) 30
     = true).
Proof.
  assert (Hin : In boundary_row
                   (Binary64.rows (Binary64.pd_DataFrame [boundary_row])))
    by (left; reflexivity).
  split; [exact boundary_sweep | ]. split; [exact Hin | ].
  exact (proj2 (proj2 (proj2 (proj1
           (sweep_record_buckets _ _ _ _ _ boundary_sweep Hin))))).
Defined.



Lemma sweep_loop_ignores_results_df
  (self : PowerAnalysisCalculator) (cache : option DataFrame)
  (mde_range : list Z) :
  forall acc,
    sweep_loop (with_results_df self cache) mde_range acc =
    sweep_loop self mde_range acc.
Proof.
  induction mde_range as [ | m rest IH]; intros acc; [reflexivity | ].
  cbn [sweep_loop].
  change (sweep_row (with_results_df self cache) m) with (sweep_row self m).
  destruct (sweep_row self m) as [r | e]; [ | reflexivity].
  cbn [bind]. apply IH.
Qed.

Lemma calculate_power_analysis_ignores_results_df
  (self : PowerAnalysisCalculator) (cache : option DataFrame)
  (mde_range : option (list Z)) :
  frame_of (calculate_power_analysis (with_results_df self cache) mde_range) =
  frame_of (calculate_power_analysis self mde_range).
Proof.
  unfold calculate_power_analysis.
  rewrite sweep_loop_ignores_results_df.
  match goal with
  | |- context [sweep_loop self ?l []] => destruct (sweep_loop self l [])
  end; reflexivity.
Qed.

(** C9.  Running the sweep a second time, on the calculator as the first run
    left it and with the same range, gives the outcome of the first run: the
    same frame (the same records, field by field, in the same order) and the
    same calculator, or the same error.  The sweep reads nothing of
    [results_df]: whatever that attribute holds, and whether or not it is
    set, the same range gives the same frame. *)
Theorem sweep_is_repeatable
  (self : PowerAnalysisCalculator) (mde_range : option (list Z)) :
  calculate_power_analysis
    (state_after (calculate_power_analysis self mde_range) self) mde_range
  = calculate_power_analysis self mde_range /\
  forall cache,
    frame_of (calculate_power_analysis (with_results_df self cache) mde_range)
    = frame_of (calculate_power_analysis self mde_range).
Proof.
  split; [ | intros cache; apply calculate_power_analysis_ignores_results_df].
  unfold calculate_power_analysis.
  match goal with
  | |- context [sweep_loop self ?l []] =>
      destruct (sweep_loop self l []) as [results | e] eqn:E
  end.
  - cbn [bind state_after].
    change (set_results_df self (pd.DataFrame results))
      with (with_results_df self (Some (pd.DataFrame results))).
    rewrite sweep_loop_ignores_results_df, E. reflexivity.
  - cbn [bind state_after]. rewrite E. reflexivity.
Qed.

(** With its defaults the constructor returns [default_calculator]. *)
Lemma default_calculator_constructed :
  __init__ norm_ppf_table (5 # 100) 100000 2 (8 # 10) (5 # 100) =
    Ok default_calculator.
Proof. reflexivity. Qed.

(** ** The recommendation selector *)

Section Frames.

Lemma iloc_nonneg (df : DataFrame) (i : Z) :
  (0 <= i < pd.len df)%Z ->
  exists r, pd.iloc df i = Ok r /\ nth_error (rows df) (Z.to_nat i) = Some r.
Proof.
  intros Hi. unfold pd.iloc.
  destruct (i <? 0)%Z eqn:E; [apply Z.ltb_lt in E; lia | ].
  assert (Hb : ((0 <=? i) && (i <? pd.len df))%Z%bool = true).
  { apply andb_true_iff. split; [apply Z.leb_le | apply Z.ltb_lt]; lia. }
  rewrite Hb.
  destruct (nth_error (rows df) (Z.to_nat i)) as [r | ] eqn:En; [eauto | ].
  apply nth_error_None in En. unfold pd.len in Hi. lia.
Qed.

Lemma iloc_last (df : DataFrame) :
  rows df <> [] ->
  exists r, pd.iloc df (-1) = Ok r /\ pick_last (rows df) = Some r.
Proof.
  intros Hne. unfold pd.iloc, pick_last.
  assert (Hlen : (0 < length (rows df))%nat)
    by (destruct (rows df); [contradiction | simpl; lia]).
  change (-1 <? 0)%Z with true. cbn iota.
  assert (Hb : ((0 <=? pd.len df + -1) && (pd.len df + -1 <? pd.len df))%Z%bool
               = true).
  { apply andb_true_iff. unfold pd.len.
    split; [apply Z.leb_le | apply Z.ltb_lt]; lia. }
  rewrite Hb.
  replace (Z.to_nat (pd.len df + -1)) with (length (rows df) - 1)%nat
    by (unfold pd.len; lia).
  destruct (nth_error (rows df) (length (rows df) - 1)) as [r | ] eqn:En;
    [eauto | ].
  apply nth_error_None in En. lia.
Qed.

Lemma iloc_middle (df : DataFrame) :
  rows df <> [] ->
  exists r, pd.iloc df (pd.len df / 2) = Ok r /\
            pick_middle (rows df) = Some r.
Proof.
  intros Hne.
  assert (Hlen : (0 < length (rows df))%nat)
    by (destruct (rows df); [contradiction | simpl; lia]).
  assert (Hi : (0 <= pd.len df / 2 < pd.len df)%Z).
  { unfold pd.len. split.
    - apply Z.div_pos; lia.
    - apply Z.div_lt; lia. }
  destruct (iloc_nonneg df _ Hi) as [r [Hr Hn]].
  exists r. split; [exact Hr | ].
  unfold pick_middle. rewrite <- Hn. f_equal.
  unfold pd.len. change 2%Z with (Z.of_nat 2).
  rewrite <- Nat2Z.inj_div. now rewrite Nat2Z.id.
Qed.

Lemma iloc_first (df : DataFrame) :
  rows df <> [] ->
  exists r, pd.iloc df 0 = Ok r /\ pick_first (rows df) = Some r.
Proof.
  intros Hne.
  assert (Hi : (0 <= 0 < pd.len df)%Z).
  { unfold pd.len. destruct (rows df); [contradiction | simpl; lia]. }
  destruct (iloc_nonneg df 0 Hi) as [r [Hr Hn]]. eauto.
Qed.

Lemma empty_true (df : DataFrame) : pd.empty df = true <-> rows df = [].
Proof.
  unfold pd.empty. destruct (rows df); split; congruence.
Qed.

Lemma pick_last_nil : pick_last [] = None.
Proof. reflexivity. Qed.

Lemma pick_middle_nil : pick_middle [] = None.
Proof. reflexivity. Qed.

(** One guarded pick of [get_recommendations]:
    [if not frame.empty: ... frame.iloc[i] ...], for a position [i] that
    the guard keeps in bounds. *)
Lemma guarded_pick (df : DataFrame) (i : Z) (pick : list Row -> option Row) :
  pick [] = None ->
  (rows df <> [] ->
   exists r, pd.iloc df i = Ok r /\ pick (rows df) = Some r) ->
  (if negb (pd.empty df) then
     r <- pd.iloc df i ;; Ok (Some (recommendation_of r))
   else Ok None) = Ok (option_map recommendation_of (pick (rows df))).
Proof.
  intros Hnil Hpick. destruct (pd.empty df) eqn:E.
  - apply empty_true in E. rewrite E, Hnil. reflexivity.
  - cbn [negb].
    destruct Hpick as [r [-> ->]]; [ | reflexivity].
    intros C. apply empty_true in C. congruence.
Qed.

End Frames.

(** [recommend] on a frame that has its columns: the three picks from the
    three filtered lists. *)
Lemma recommend_with_columns (df : DataFrame) :
  has_columns df = true ->
  let feasible := filter feasible_mask (rows df) in
  recommend df =
    Ok (mkRecs
          (option_map recommendation_of
                      (pick_last (filter quick_mask feasible)))
          (option_map recommendation_of
                      (pick_middle (filter standard_mask feasible)))
          (option_map recommendation_of (pick_first feasible))).
Proof.
  intros Hc feasible. unfold recommend, pd.select. rewrite Hc.
  cbn [bind has_columns rows]. fold feasible.
  rewrite (guarded_pick (mkFrame true (filter quick_mask feasible)) (-1)
                        pick_last pick_last_nil (iloc_last _)).
  cbn [bind].
  rewrite (guarded_pick (mkFrame true (filter standard_mask feasible))
                        (pd.len (mkFrame true (filter standard_mask feasible)) / 2)
                        pick_middle pick_middle_nil (iloc_middle _)).
  cbn [bind].
  rewrite (guarded_pick (mkFrame true feasible) 0 pick_first eq_refl
                        (iloc_first _)).
  reflexivity.
Qed.

Lemma recommend_without_columns (df : DataFrame) :
  has_columns df = false -> recommend df = Raise KeyError.
Proof.
  intros Hc. unfold recommend, pd.select. now rewrite Hc.
Qed.

Section Ascending.

Lemma ascending_filter (f : Row -> bool) (l : list Row) :
  ascending_mde l -> ascending_mde (filter f l).
Proof.
  unfold ascending_mde. induction 1 as [ | x l Hs IH Hx]; [constructor | ].
  cbn [filter]. destruct (f x); [ | exact IH].
  constructor; [exact IH | ].
  apply Forall_forall. intros y Hy. apply filter_In in Hy as [Hy _].
  rewrite Forall_forall in Hx. now apply Hx.
Qed.

Lemma pick_first_least (l : list Row) (r : Row) :
  ascending_mde l -> pick_first l = Some r ->
  In r l /\ forall r', In r' l -> (MDE_Percent r <= MDE_Percent r')%Z.
Proof.
  unfold pick_first. intros Hs Hr.
  destruct l as [ | x l]; [discriminate | ]. injection Hr as ->.
  split; [now left | ].
  intros r' [<- | Hin]; [lia | ].
  apply StronglySorted_inv in Hs as [_ Hx].
  rewrite Forall_forall in Hx. now apply Hx.
Qed.

Lemma pick_last_greatest (l : list Row) (r : Row) :
  ascending_mde l -> pick_last l = Some r ->
  In r l /\ forall r', In r' l -> (MDE_Percent r' <= MDE_Percent r)%Z.
Proof.
  unfold pick_last. intros Hs.
  induction Hs as [ | x l Hs IH Hx]; intros Hr; [discriminate | ].
  destruct l as [ | y l'].
  - injection Hr as ->. split; [now left | ].
    intros r' [<- | []]. lia.
  - cbn [length] in Hr, IH.
    replace (S (S (length l')) - 1)%nat with (S (length l')) in Hr by lia.
    replace (S (length l') - 1)%nat with (length l') in IH by lia.
    cbn [nth_error] in Hr. destruct (IH Hr) as [Hin Hmax].
    split; [now right | ].
    intros r' [<- | Hin'].
    + rewrite Forall_forall in Hx. now apply Hx.
    + now apply Hmax.
Qed.

Lemma pick_nonempty (pick : list Row -> option Row) (l : list Row) (i : nat) :
  pick l = nth_error l i -> (i < length l)%nat -> exists r, pick l = Some r.
Proof.
  intros -> Hi. destruct (nth_error l i) eqn:E; [eauto | ].
  apply nth_error_None in E. lia.
Qed.

Lemma length_pos (l : list Row) : l <> [] -> (0 < length l)%nat.
Proof. destruct l; [contradiction | simpl; lia]. Qed.

End Ascending.

Section Masks.

Variable r : Row.

Lemma feasible_mask_spec :
  feasible_mask r = true <->
  Duration_Days r <= 30 /\ Population_Split_Percent r <= 50.
Proof.
  unfold feasible_mask. rewrite andb_true_iff, !Qle_bool_iff. tauto.
Qed.

Lemma quick_mask_spec : quick_mask r = true <-> Duration_Days r <= 7.
Proof. unfold quick_mask. apply Qle_bool_iff. Qed.

Lemma standard_mask_spec :
  standard_mask r = true <-> 7 < Duration_Days r /\ Duration_Days r <= 21.
Proof.
  unfold standard_mask.
  rewrite andb_true_iff, negb_true_iff, Qle_bool_iff. split.
  - intros [Hn Hle]. split; [ | exact Hle].
    apply Qnot_le_lt. intros C. apply Qle_bool_iff in C. congruence.
  - intros [Hlt Hle]. split; [ | exact Hle].
    destruct (Qle_bool (Duration_Days r) 7) eqn:E; [ | reflexivity].
    apply Qle_bool_iff in E. lra.
Qed.

End Masks.

Lemma pools_spec (results : list Row) (r : Row) :
  (In r (feasible_records results) <->
     In r results /\ Duration_Days r <= 30 /\ Population_Split_Percent r <= 50) /\
  (In r (quick_records results) <->
     In r (feasible_records results) /\ Duration_Days r <= 7) /\
  (In r (standard_records results) <->
     In r (feasible_records results) /\
     7 < Duration_Days r /\ Duration_Days r <= 21).
Proof.
  unfold quick_records, standard_records, feasible_records.
  rewrite !filter_In, feasible_mask_spec, quick_mask_spec, standard_mask_spec.
  tauto.
Qed.

(** What a successful call of [get_recommendations] has read: the frame that
    is stored afterwards, which has its columns. *)
Lemma get_recommendations_inv
  (self self' : PowerAnalysisCalculator) (recs : Recommendations) :
  get_recommendations self = Ok (self', recs) ->
  exists df,
    results_df self' = Some df /\ has_columns df = true /\
    recommend df = Ok recs.
Proof.
  unfold get_recommendations. intros H.
  assert (Hcols : forall df, recommend df = Ok recs -> has_columns df = true).
  { intros df Hr. destruct (has_columns df) eqn:E; [reflexivity | ].
    rewrite recommend_without_columns in Hr by exact E. discriminate. }
  destruct (results_df self) as [df | ] eqn:Edf.
  - destruct (recommend df) as [recs' | e] eqn:Er; [ | discriminate].
    cbn [bind] in H. injection H as <- <-.
    exists df. auto.
  - unfold calculate_power_analysis in H.
    destruct (sweep_loop self (Num.range 1 31) []) as [results | e];
      [ | discriminate].
    cbn [bind fst snd] in H.
    destruct (recommend (pd.DataFrame results)) as [recs' | e] eqn:Er;
      [ | discriminate].
    cbn [bind] in H. injection H as <- <-.
    exists (pd.DataFrame results). auto.
Qed.

Lemma get_recommendations_stored
  (self : PowerAnalysisCalculator) (df : DataFrame) :
  results_df self = Some df ->
  get_recommendations self = (recs <- recommend df ;; Ok (self, recs)).
Proof. intros H. unfold get_recommendations. now rewrite H. Qed.

(** ** Claims about the recommendation selector *)

(** X1.  The selection rule on a non-empty result sequence in ascending MDE
    order (the part of C4 that the code fulfils).  The call returns.  The feasible
    records are those whose stored duration is at most 30 and whose stored
    split is at most 50; the quick candidates are the feasible records with
    a duration of at most 7, the standard candidates those with a duration
    in (7,21].  If no record is feasible, the three recommendations are
    absent; [quick_test] is absent when there is no quick candidate, and is
    otherwise taken from a quick candidate whose MDE is the largest among
    them; [standard_test] is absent when there is no standard candidate, and
    is otherwise taken from the candidate at position [floor (count / 2)];
    [sensitive_test] is taken from a feasible record of smallest MDE.  A
    recommendation carries the MDE, the duration and the total sample size of
    its record. *)
Theorem recommend_selection
  (self : PowerAnalysisCalculator) (results : list Row) :
  results <> [] ->
  ascending_mde results ->
  results_df self = Some (pd.DataFrame results) ->
  (forall r,
     (In r (feasible_records results) <->
        In r results /\ Duration_Days r <= 30 /\
        Population_Split_Percent r <= 50) /\
     (In r (quick_records results) <->
        In r results /\ Duration_Days r <= 7 /\
        Population_Split_Percent r <= 50) /\
     (In r (standard_records results) <->
        In r results /\ 7 < Duration_Days r /\ Duration_Days r <= 21 /\
        Population_Split_Percent r <= 50)) /\
  exists recs,
    get_recommendations self = Ok (self, recs) /\
    (feasible_records results = [] ->
       quick_test recs = None /\ standard_test recs = None /\
       sensitive_test recs = None) /\
    (quick_records results = [] -> quick_test recs = None) /\
    (quick_records results <> [] ->
       exists r,
         In r (quick_records results) /\
         (forall r', In r' (quick_records results) ->
                     (MDE_Percent r' <= MDE_Percent r)%Z) /\
         quick_test recs =
           Some (mkRec (MDE_Percent r) (Duration_Days r) (Total_Sample_Size r))) /\
    (standard_records results = [] -> standard_test recs = None) /\
    (standard_records results <> [] ->
       exists r,
         nth_error (standard_records results)
                   (length (standard_records results) / 2) = Some r /\
         standard_test recs =
           Some (mkRec (MDE_Percent r) (Duration_Days r) (Total_Sample_Size r))) /\
    (feasible_records results <> [] ->
       exists r,
         In r (feasible_records results) /\
         (forall r', In r' (feasible_records results) ->
                     (MDE_Percent r <= MDE_Percent r')%Z) /\
         sensitive_test recs =
           Some (mkRec (MDE_Percent r) (Duration_Days r) (Total_Sample_Size r))).
Proof.
  intros Hne Hasc Hdf.
  split.
  { intros r. destruct (pools_spec results r) as [Hf [Hq Hs]].
    split; [exact Hf | ]. split.
    - rewrite Hq, Hf. split; [intros [[? [? ?]] ?] | intros [? [? ?]]];
        repeat split; try assumption; lra.
    - rewrite Hs, Hf. split; [intros [[? [? ?]] [? ?]] | intros [? [? [? ?]]]];
        repeat split; try assumption; lra. }
  assert (Hcols : has_columns (pd.DataFrame results) = true)
    by (destruct results; [contradiction | reflexivity]).
  rewrite (get_recommendations_stored _ _ Hdf).
  rewrite (recommend_with_columns _ Hcols). cbn zeta. cbn [bind].
  rewrite rows_DataFrame.
  fold (feasible_records results).
  fold (quick_records results). fold (standard_records results).
  eexists. split; [reflexivity | ].
  cbn [quick_test standard_test sensitive_test].
  assert (Hf : ascending_mde (feasible_records results))
    by (now apply ascending_filter).
  assert (Hq : ascending_mde (quick_records results))
    by (now apply ascending_filter).
  repeat split.
  - unfold quick_records. rewrite H. reflexivity.
  - unfold standard_records. rewrite H. reflexivity.
  - rewrite H. reflexivity.
  - intros ->. reflexivity.
  - intros Hq'.
    destruct (pick_nonempty pick_last (quick_records results)
                (length (quick_records results) - 1) eq_refl) as [r Hr].
    { apply length_pos in Hq'. lia. }
    destruct (pick_last_greatest _ _ Hq Hr) as [Hin Hmax].
    exists r. rewrite Hr. auto.
  - intros ->. reflexivity.
  - intros Hs'.
    destruct (pick_nonempty pick_middle (standard_records results)
                (length (standard_records results) / 2) eq_refl) as [r Hr].
    { apply length_pos in Hs'. apply Nat.div_lt; lia. }
    exists r. rewrite Hr. auto.
  - intros Hf'.
    destruct (pick_nonempty pick_first (feasible_records results) 0 eq_refl)
      as [r Hr].
    { now apply length_pos. }
    destruct (pick_first_least _ _ Hf Hr) as [Hin Hmin].
    exists r. rewrite Hr. auto.
Qed.

(** On the two records of the sweep over [[10; 20]], both feasible and
    quick: the quick recommendation comes from a record of largest MDE and
    the sensitive one from a record of smallest MDE. *)
Lemma recommend_selection_witness :
  example_rows_2 <> [] /\
  ascending_mde example_rows_2 /\
  results_df (set_results_df default_calculator example_frame_2) =
    Some (pd.DataFrame example_rows_2) /\
  length (feasible_records example_rows_2) = 2%nat /\
  length (quick_records example_rows_2) = 2%nat /\
  exists recs,
    get_recommendations (set_results_df default_calculator example_frame_2) =
      Ok (set_results_df default_calculator example_frame_2, recs) /\
    (exists r,
       In r (quick_records example_rows_2) /\
       (forall r', In r' (quick_records example_rows_2) ->
                   (MDE_Percent r' <= MDE_Percent r)%Z) /\
       quick_test recs =
         Some (mkRec (MDE_Percent r) (Duration_Days r) (Total_Sample_Size r))) /\
    (exists r,
       In r (feasible_records example_rows_2) /\
       (forall r', In r' (feasible_records example_rows_2) ->
                   (MDE_Percent r <= MDE_Percent r')%Z) /\
       sensitive_test recs =
         Some (mkRec (MDE_Percent r) (Duration_Days r) (Total_Sample_Size r))).
Proof.
  assert (Hne : example_rows_2 <> []) by discriminate.
  assert (Hasc : ascending_mde example_rows_2).
  { repeat constructor. cbn. lia. }
  assert (Hdf : results_df (set_results_df default_calculator example_frame_2)
                = Some (pd.DataFrame example_rows_2)) by reflexivity.
  assert (Hf : length (feasible_records example_rows_2) = 2%nat)
    by (vm_compute; reflexivity).
  assert (Hq : length (quick_records example_rows_2) = 2%nat)
    by (vm_compute; reflexivity).
  split; [exact Hne | ].
  split; [exact Hasc | ].
  split; [exact Hdf | ].
  split; [exact Hf | ].
  split; [exact Hq | ].
  destruct (recommend_selection _ _ Hne Hasc Hdf)
    as [_ [recs [Hrecs [_ [_ [Hquick [_ [_ Hsens]]]]]]]].
  exists recs. split; [exact Hrecs | ].
  split.
  - apply Hquick. intros E. rewrite E in Hq. discriminate.
  - apply Hsens. intros E. rewrite E in Hf. discriminate.
Defined.

(** The sweep keeps the order of its range: the MDEs of the records are the
    elements of the range, so an ascending range gives an ascending result
    sequence. *)
Lemma sweep_keeps_range_order
  (self self' : PowerAnalysisCalculator) (mde_range : list Z) (df : DataFrame) :
  calculate_power_analysis self (Some mde_range) = Ok (self', df) ->
  map MDE_Percent (rows df) = mde_range.
Proof.
  unfold calculate_power_analysis. intros H.
  destruct (sweep_loop self mde_range []) as [results | e] eqn:E;
    [ | discriminate].
  cbn [bind] in H. injection H as _ <-. rewrite rows_DataFrame.
  destruct (sweep_loop_inv _ _ _ _ E) as [rs [-> HF]]. cbn [app].
  clear E. induction HF as [ | m r ms rs' Hr _ IH]; [reflexivity | ].
  cbn [map]. rewrite IH. f_equal.
  destruct (sweep_row_inv _ _ _ Hr) as [n [_ [_ ->]]]. reflexivity.
Qed.

(** C4 at the empty result sequence.  A sweep over the empty range succeeds
    and stores a frame without rows and without columns; the selector then
    stops with [KeyError] on its first column lookup, where the claim has it
    return three absent recommendations. *)
Theorem get_recommendations_after_empty_sweep (self : PowerAnalysisCalculator) :
  calculate_power_analysis self (Some []) =
    Ok (set_results_df self (pd.DataFrame []), pd.DataFrame []) /\
  feasible_records (rows (pd.DataFrame [])) = [] /\
  get_recommendations (set_results_df self (pd.DataFrame [])) = Raise KeyError.
Proof.
  repeat split.
Qed.

(** C10.  Whenever [get_recommendations] returns, in the frame it has read:
    the quick and the standard candidates are feasible records; a sensitive
    recommendation is produced exactly when some record is feasible, a quick
    one exactly when there is a quick candidate and a standard one exactly
    when there is a standard candidate.  Hence a call that returns a quick or
    a standard recommendation returns a sensitive recommendation too. *)
Theorem sensitive_present_with_quick_or_standard
  (self self' : PowerAnalysisCalculator) (recs : Recommendations) :
  get_recommendations self = Ok (self', recs) ->
  exists df,
    results_df self' = Some df /\
    incl (quick_records (rows df)) (feasible_records (rows df)) /\
    incl (standard_records (rows df)) (feasible_records (rows df)) /\
    (feasible_records (rows df) <> [] <-> sensitive_test recs <> None) /\
    (quick_records (rows df) <> [] <-> quick_test recs <> None) /\
    (standard_records (rows df) <> [] <-> standard_test recs <> None) /\
    (quick_test recs <> None \/ standard_test recs <> None ->
     sensitive_test recs <> None).
Proof.
  intros H.
  destruct (get_recommendations_inv _ _ _ H) as [df [Hdf [Hc Hr]]].
  rewrite (recommend_with_columns _ Hc) in Hr. cbn zeta in Hr.
  injection Hr as <-. cbn [quick_test standard_test sensitive_test] in *.
  fold (feasible_records (rows df)) in *.
  fold (quick_records (rows df)) in *. fold (standard_records (rows df)) in *.
  assert (Hpick : forall (pick : list Row -> option Row) (l : list Row) k,
            pick = (fun l => nth_error l (k l)) ->
            (l <> [] -> (k l < length l)%nat) ->
            (l <> [] <-> option_map recommendation_of (pick l) <> None)).
  { intros pick l k -> Hk. split.
    - intros Hl. destruct (nth_error l (k l)) eqn:E; [discriminate | ].
      apply nth_error_None in E. specialize (Hk Hl). lia.
    - intros Hn ->. apply Hn. destruct (k []); reflexivity. }
  assert (Hsens : feasible_records (rows df) <> [] <->
                  option_map recommendation_of
                    (pick_first (feasible_records (rows df))) <> None).
  { apply (Hpick pick_first _ (fun _ => 0%nat) eq_refl).
    intros Hl. now apply length_pos. }
  assert (Hquick : quick_records (rows df) <> [] <->
                   option_map recommendation_of
                     (pick_last (quick_records (rows df))) <> None).
  { apply (Hpick pick_last _ (fun l => (length l - 1)%nat) eq_refl).
    intros Hl. apply length_pos in Hl. lia. }
  assert (Hstd : standard_records (rows df) <> [] <->
                 option_map recommendation_of
                   (pick_middle (standard_records (rows df))) <> None).
  { apply (Hpick pick_middle _ (fun l => (length l / 2)%nat) eq_refl).
    intros Hl. apply length_pos in Hl. apply Nat.div_lt; lia. }
  exists df. split; [exact Hdf | ].
  split; [unfold quick_records; apply incl_filter | ].
  split; [unfold standard_records; apply incl_filter | ].
  split; [exact Hsens | ]. split; [exact Hquick | ]. split; [exact Hstd | ].
  intros Hqs. apply Hsens. intros Hf.
  destruct Hqs as [Hq | Hs].
  - apply Hquick in Hq. apply Hq. unfold quick_records. now rewrite Hf.
  - apply Hstd in Hs. apply Hs. unfold standard_records. now rewrite Hf.
Qed.

Lemma sensitive_present_with_quick_or_standard_witness :
  get_recommendations (set_results_df default_calculator example_frame) =
    Ok (set_results_df default_calculator example_frame,
        example_recommendations) /\
  (quick_test example_recommendations <> None \/
   standard_test example_recommendations <> None) /\
  sensitive_test example_recommendations <> None.
Proof.
  assert (Hrun : get_recommendations
                   (set_results_df default_calculator example_frame) =
                 Ok (set_results_df default_calculator example_frame,
                     example_recommendations))
    by (vm_compute; reflexivity).
  assert (Hq : quick_test example_recommendations <> None \/
               standard_test example_recommendations <> None)
    by (left; discriminate).
  split; [exact Hrun | ].
  split; [exact Hq | ].
  destruct (sensitive_present_with_quick_or_standard _ _ _ Hrun)
    as [df [_ [_ [_ [_ [_ [_ Himp]]]]]]].
  exact (Himp Hq).
Defined.

(** ** Further properties of the code *)

Section RoundingOrder.

Lemma round_half_even_bounds (x : Q) :
  (Qfloor x <= Num.round_half_even x <= Qfloor x + 1)%Z.
Proof.
  unfold Num.round_half_even.
  destruct (x - inject_Z (Qfloor x) ?= 1 # 2); [ | lia | lia].
  destruct (Z.even (Qfloor x)); lia.
Qed.

Lemma round_half_even_monotone (x y : Q) :
  x <= y -> (Num.round_half_even x <= Num.round_half_even y)%Z.
Proof.
  intros Hxy.
  pose proof (Qfloor_resp_le _ _ Hxy) as Hf.
  destruct (Z.eq_dec (Qfloor x) (Qfloor y)) as [E | NE].
  - unfold Num.round_half_even. rewrite <- E.
    destruct (Qcompare_spec (x - inject_Z (Qfloor x)) (1 # 2)) as [Ex | Ex | Ex];
      destruct (Qcompare_spec (y - inject_Z (Qfloor x)) (1 # 2)) as [Ey | Ey | Ey];
      try (destruct (Z.even (Qfloor x))); try lia; lra.
  - pose proof (round_half_even_bounds x). pose proof (round_half_even_bounds y).
    lia.
Qed.

Lemma round_monotone (x y : Q) (n : nat) :
  x <= y -> Num.round x n <= Num.round y n.
Proof.
  intros Hxy. unfold Num.round.
  set (scale := inject_Z (10 ^ Z.of_nat n)).
  assert (Hs : 0 < scale).
  { unfold scale. change 0 with (inject_Z 0). rewrite <- Zlt_Qlt.
    apply Z.pow_pos_nonneg; lia. }
  unfold Qdiv. apply Qmult_le_compat_r.
  - rewrite <- Zle_Qle. apply round_half_even_monotone.
    apply Qmult_le_compat_r; [exact Hxy | lra].
  - apply Qlt_le_weak, Qinv_lt_0_compat, Hs.
Qed.

Lemma round_near (x : Q) :
  x - (1 # 200) <= Num.round x 2 /\ Num.round x 2 <= x + (1 # 200).
Proof.
  destruct (round_2_decimals x) as [_ H].
  apply Qabs_Qle_condition in H. lra.
Qed.

End RoundingOrder.

Section SweepOutcome.

Variable self : PowerAnalysisCalculator.

Lemma sweep_row_error (m : Z) (e : PyError) :
  sweep_row self m = Raise e ->
  e = ZeroDivisionError \/ e = OverflowError \/ e = ValueError.
Proof.
  unfold sweep_row. intros H.
  destruct (Qeq_dec (inject_Z m / 100) 0) as [E | NE].
  - destruct (calculate_sample_size_zero self _ E) as [e' [He' Hk]].
    rewrite He' in H. cbn [bind] in H. injection H as <-. tauto.
  - rewrite (calculate_sample_size_nonzero self _ NE) in H. cbn [bind] in H.
    unfold Num.truediv in H.
    destruct (Qeq_bool (inject_Z (monthly_population self)) 0);
      cbn [bind] in H; [injection H as <-; tauto | ].
    destruct (Qeq_bool (inject_Z (monthly_population self) / 30) 0);
      cbn [bind] in H; [injection H as <-; tauto | discriminate].
Qed.

Lemma sweep_loop_error (mde_range : list Z) (e : PyError) :
  forall acc,
    sweep_loop self mde_range acc = Raise e ->
    exists m, In m mde_range /\ sweep_row self m = Raise e.
Proof.
  induction mde_range as [ | m rest IH]; intros acc H; [discriminate | ].
  cbn [sweep_loop] in H.
  destruct (sweep_row self m) as [r | e'] eqn:Er.
  - cbn [bind] in H. destruct (IH _ H) as [m' [Hin Hm']].
    exists m'. split; [now right | exact Hm'].
  - cbn [bind] in H. injection H as <-. exists m. split; [now left | exact Er].
Qed.

End SweepOutcome.

(** X6.  A sweep that returns has produced one record per element of its
    range, in the order of the range: the MDEs of the records are the range
    itself (1 to 30 when no range is given), every record holds its MDE
    divided by 100 as decimal, and the calculator returned is the old one with
    the new frame stored. *)
Theorem sweep_one_record_per_mde
  (self self' : PowerAnalysisCalculator) (mde_range : option (list Z))
  (df : DataFrame) :
  calculate_power_analysis self mde_range = Ok (self', df) ->
  map MDE_Percent (rows df) =
    match mde_range with
    | Some l => l
    | None => [1; 2; 3; 4; 5; 6; 7; 8; 9; 10; 11; 12; 13; 14; 15; 16; 17; 18;
               19; 20; 21; 22; 23; 24; 25; 26; 27; 28; 29; 30]%Z
    end /\
  Forall (fun r => MDE_Decimal r = inject_Z (MDE_Percent r) / 100) (rows df) /\
  self' = set_results_df self df.
Proof.
  intros H. split; [ | split].
  - destruct mde_range as [l | ].
    + exact (sweep_keeps_range_order _ _ _ _ H).
    + change (calculate_power_analysis self None)
        with (calculate_power_analysis self (Some (Num.range 1 31))) in H.
      exact (sweep_keeps_range_order _ _ _ _ H).
  - apply Forall_forall. intros r Hin.
    destruct (calculate_power_analysis_rows _ _ _ _ _ H Hin)
      as [m [n [_ [_ ->]]]]. reflexivity.
  - unfold calculate_power_analysis in H.
    match type of H with
    | bind (sweep_loop _ ?l _) _ = _ =>
        destruct (sweep_loop self l []) as [results | e]; [ | discriminate]
    end.
    cbn [bind] in H. now injection H as <- <-.
Qed.

Lemma sweep_one_record_per_mde_witness :
  calculate_power_analysis default_calculator (Some [10%Z]) =
    Ok (set_results_df default_calculator example_frame, example_frame) /\
  map MDE_Percent (rows example_frame) = [10%Z].
Proof.
  split; [exact example_sweep | ].
  exact (proj1 (sweep_one_record_per_mde default_calculator _ (Some [10%Z])
                  example_frame example_sweep)).
Defined.

(** X7.  When the sweep returns and how it fails, in binary64.  Over the
    empty range it returns the frame without rows and without columns.  Over
    any other range it returns only if the monthly population is not 0 and
    no MDE of the range is 0; this is necessary and not sufficient, since
    the arithmetic can overflow.  When it fails, the error is a
    [ZeroDivisionError], an [OverflowError] or a [ValueError], the error of
    the first iteration that fails. *)
Theorem sweep_returns_only_if
  (self : Binary64.PowerAnalysisCalculator) (mde_range : list Z) :
  Binary64.calculate_power_analysis self (Some []) =
    Ok (Binary64.set_results_df self (Binary64.pd_DataFrame []),
        Binary64.pd_DataFrame []) /\
  (forall self' df,
     Binary64.calculate_power_analysis self (Some mde_range) = Ok (self', df) ->
     mde_range = [] \/
     (Binary64.monthly_population self <> 0%Z /\
      Forall (fun m => m <> 0%Z) mde_range)) /\
  (forall e,
     Binary64.calculate_power_analysis self (Some mde_range) = Raise e ->
     (e = ZeroDivisionError \/ e = OverflowError \/ e = ValueError) /\
     exists m, In m mde_range /\ Binary64.sweep_row self m = Raise e).
Proof.
  split; [reflexivity | ]. split.
  - intros self' df H.
    destruct (calculate_power_analysis_rows64 _ _ _ _ H) as [_ HF].
    destruct mde_range as [ | m0 rest]; [now left | right].
    split.
    + inversion HF as [ | ? r ? ? Hr _]; subst.
      destruct (sweep_row_inv64 _ _ _ Hr) as [n [_ [Hp _]]]. exact Hp.
    + apply Forall_forall. intros m Hm ->.
      destruct (Forall2_In_l _ _ _ _ HF Hm) as [r [_ Hr]].
      destruct (sweep_row_zero_mde64 self) as [e [He _]].
      rewrite He in Hr. discriminate.
  - intros e H. unfold Binary64.calculate_power_analysis in H.
    destruct (Binary64.sweep_loop self mde_range []) as [results | e'] eqn:E;
      [discriminate | ].
    cbn [bind] in H. injection H as <-.
    destruct (sweep_loop_error64 _ _ _ _ E) as [m [Hin Hm]].
    split; [exact (sweep_row_error64 _ _ _ Hm) | eauto].
Qed.

Lemma sweep_returns_only_if_witness :
  Binary64.calculate_power_analysis (calculator64 306 2) (Some [7%Z]) =
    Ok (Binary64.set_results_df (calculator64 306 2)
          (Binary64.pd_DataFrame [boundary_row]),
        Binary64.pd_DataFrame [boundary_row]) /\
  ([7%Z] = [] \/
   (Binary64.monthly_population (calculator64 306 2) <> 0%Z /\
    Forall (fun m => m <> 0%Z) [7%Z])).
Proof.
  split; [exact boundary_sweep | ].
  exact (proj1 (proj2 (sweep_returns_only_if (calculator64 306 2) [7%Z]))
           _ _ boundary_sweep).
Defined.

Section Labels.

Lemma duration_is_three_tenths_of_split (total population : Q) :
  ~ population == 0 ->
  total / (population / 30) == (3 # 10) * (total / population * 100).
Proof. intros H. field. exact H. Qed.

Lemma round_fixes_7 : Num.round 7 2 == 7.
Proof. reflexivity. Qed.

Lemma round_fixes_14 : Num.round 14 2 == 14.
Proof. reflexivity. Qed.

Lemma round_fixes_15 : Num.round (150015 # 10000) 2 == 15.
Proof. reflexivity. Qed.

Lemma round_fixes_30 : Num.round 30 2 == 30.
Proof. reflexivity. Qed.

Lemma round_fixes_25 : Num.round 25 2 == 25.
Proof. reflexivity. Qed.

Lemma round_fixes_50 : Num.round 50 2 == 50.
Proof. reflexivity. Qed.

Lemma round_fixes_75 : Num.round 75 2 == 75.
Proof. reflexivity. Qed.

(** Rounding to two decimals never crosses a threshold that has itself at
    most two decimals. *)
Lemma round_le_threshold (x c : Q) :
  Num.round c 2 == c -> x <= c -> Num.round x 2 <= c.
Proof.
  intros Hc Hx. rewrite <- Hc. now apply round_monotone.
Qed.

Lemma round_ge_threshold (x c : Q) :
  Num.round c 2 == c -> c <= x -> c <= Num.round x 2.
Proof.
  intros Hc Hx. rewrite <- Hc. now apply round_monotone.
Qed.


End Labels.



(** On sweep records the feasibility mask is the split test. *)
Lemma sweep_feasible_mask
  (self self' : PowerAnalysisCalculator) (mde_range : option (list Z))
  (df : DataFrame) (r : Row) :
  calculate_power_analysis self mde_range = Ok (self', df) ->
  In r (rows df) ->
  feasible_mask r = Qle_bool (Population_Split_Percent r) 50 /\
  (feasible_mask r = true -> Duration_Days r <= 15).
Proof.
  intros H Hin.
  destruct (calculate_power_analysis_rows _ _ _ _ _ H Hin)
    as [m [n [_ [Hp ->]]]].
  unfold feasible_mask, row_of. cbn [Duration_Days Population_Split_Percent].
  set (total := inject_Z (n * num_variants self)).
  set (population := inject_Z (monthly_population self)).
  assert (Hpop : ~ population == 0) by (now apply monthly_population_nonzero).
  pose proof (duration_is_three_tenths_of_split total population Hpop) as Hd.
  set (d := total / (population / 30)) in *.
  set (s := total / population * 100) in *.
  assert (Hdur : Num.round s 2 <= 50 -> Num.round d 2 <= 15).
  { intros Hs. destruct (round_near s) as [Hlo _].
    assert (Hd15 : d <= 150015 # 10000) by lra.
    rewrite <- round_fixes_15. now apply round_monotone. }
  split.
  - destruct (Qle_bool (Num.round s 2) 50) eqn:Es;
      [ | now rewrite andb_false_r].
    rewrite andb_true_r. apply Qle_bool_iff.
    apply Qle_bool_iff in Es. specialize (Hdur Es). lra.
  - intros Hf. apply andb_true_iff in Hf as [_ Hs].
    apply Qle_bool_iff in Hs. now apply Hdur.
Qed.

(** X9.  On the records of a sweep the duration test of the feasibility
    filter is redundant: a record passes the filter of [get_recommendations]
    exactly when its stored population split is at most 50, and a record that
    passes has a stored duration of at most 15 days (so the upper bound 21 of
    the standard bucket is never what excludes a record). *)
Theorem sweep_feasible_iff_split_at_most_50
  (self self' : PowerAnalysisCalculator) (mde_range : option (list Z))
  (df : DataFrame) (r : Row) :
  calculate_power_analysis self mde_range = Ok (self', df) ->
  In r (rows df) ->
  feasible_mask r = Qle_bool (Population_Split_Percent r) 50 /\
  (feasible_mask r = true -> Duration_Days r <= 15).
Proof.
  intros H Hin.
  exact (sweep_feasible_mask self self' mde_range df r H Hin).
Qed.

Lemma sweep_feasible_iff_split_at_most_50_witness :
  calculate_power_analysis default_calculator (Some [10%Z]) =
    Ok (set_results_df default_calculator example_frame, example_frame) /\
  In example_row (rows example_frame) /\
  feasible_mask example_row =
    Qle_bool (Population_Split_Percent example_row) 50.
Proof.
  assert (Hin : In example_row (rows example_frame)) by (left; reflexivity).
  split; [exact example_sweep | ].
  split; [exact Hin | ].
  exact (proj1 (sweep_feasible_iff_split_at_most_50 default_calculator _
                  (Some [10%Z]) example_frame example_row example_sweep Hin)).
Defined.

(** Stored values against labels, on sweep records. *)
Lemma sweep_stored_bucket
  (self self' : PowerAnalysisCalculator) (mde_range : option (list Z))
  (df : DataFrame) (r : Row) :
  calculate_power_analysis self mde_range = Ok (self', df) ->
  In r (rows df) ->
  (match Feasibility r with
   | VeryShort => Duration_Days r <= 7
   | Short => 7 <= Duration_Days r /\ Duration_Days r <= 14
   | Moderate => 14 <= Duration_Days r /\ Duration_Days r <= 30
   | Long => 30 <= Duration_Days r
   end) /\
  (match Traffic_Assessment r with
   | Excellent => Population_Split_Percent r <= 25
   | Good => 25 <= Population_Split_Percent r /\
             Population_Split_Percent r <= 50
   | Challenging => 50 <= Population_Split_Percent r /\
                    Population_Split_Percent r <= 75
   | InsufficientTraffic => 75 <= Population_Split_Percent r
   end).
Proof.
  intros H Hin.
  destruct (calculate_power_analysis_rows _ _ _ _ _ H Hin)
    as [m [n [_ [Hp ->]]]].
  unfold row_of.
  cbn [Duration_Days Population_Split_Percent Feasibility Traffic_Assessment].
  set (d := inject_Z (n * num_variants self) /
            (inject_Z (monthly_population self) / 30)).
  set (s := inject_Z (n * num_variants self) /
            inject_Z (monthly_population self) * 100).
  split.
  - destruct (classify_feasibility d) eqn:Ef;
      apply classify_feasibility_spec in Ef;
      repeat split;
      first [ apply round_le_threshold;
              [first [exact round_fixes_7 | exact round_fixes_14
                     | exact round_fixes_30] | lra]
            | apply round_ge_threshold;
              [first [exact round_fixes_7 | exact round_fixes_14
                     | exact round_fixes_30] | lra] ].
  - destruct (classify_traffic s) eqn:Et;
      apply classify_traffic_spec in Et;
      repeat split;
      first [ apply round_le_threshold;
              [first [exact round_fixes_25 | exact round_fixes_50
                     | exact round_fixes_75] | lra]
            | apply round_ge_threshold;
              [first [exact round_fixes_25 | exact round_fixes_50
                     | exact round_fixes_75] | lra] ].
Qed.

(** X10.  The value stored in a record stays in the closed bucket of its
    label: Very Short records store a duration of at most 7, Short ones a
    duration in [7,14], Moderate ones in [14,30], Long ones at least 30; and
    Excellent records store a split of at most 25, Good ones a split in
    [25,50], Challenging ones in [50,75], Insufficient Traffic ones at least
    75.  (The label is computed before rounding, so a stored boundary value
    can carry the label of the bucket above.) *)
Theorem sweep_stored_value_in_closed_bucket
  (self self' : PowerAnalysisCalculator) (mde_range : option (list Z))
  (df : DataFrame) (r : Row) :
  calculate_power_analysis self mde_range = Ok (self', df) ->
  In r (rows df) ->
  (match Feasibility r with
   | VeryShort => Duration_Days r <= 7
   | Short => 7 <= Duration_Days r /\ Duration_Days r <= 14
   | Moderate => 14 <= Duration_Days r /\ Duration_Days r <= 30
   | Long => 30 <= Duration_Days r
   end) /\
  (match Traffic_Assessment r with
   | Excellent => Population_Split_Percent r <= 25
   | Good => 25 <= Population_Split_Percent r /\
             Population_Split_Percent r <= 50
   | Challenging => 50 <= Population_Split_Percent r /\
                    Population_Split_Percent r <= 75
   | InsufficientTraffic => 75 <= Population_Split_Percent r
   end).
Proof.
  intros H Hin.
  exact (sweep_stored_bucket self self' mde_range df r H Hin).
Qed.

Lemma sweep_stored_value_in_closed_bucket_witness :
  calculate_power_analysis default_calculator (Some [10%Z]) =
    Ok (set_results_df default_calculator example_frame, example_frame) /\
  In example_row (rows example_frame) /\
  match Feasibility example_row with
  | VeryShort => Duration_Days example_row <= 7
  | Short => 7 <= Duration_Days example_row /\ Duration_Days example_row <= 14
  | Moderate => 14 <= Duration_Days example_row /\
                Duration_Days example_row <= 30
  | Long => 30 <= Duration_Days example_row
  end.
Proof.
  assert (Hin : In example_row (rows example_frame)) by (left; reflexivity).
  split; [exact example_sweep | ].
  split; [exact Hin | ].
  exact (proj1 (sweep_stored_value_in_closed_bucket default_calculator _
                  (Some [10%Z]) example_frame example_row example_sweep Hin)).
Defined.







Section RecommendationFacts.

(** The frame of a default sweep that returns has its columns. *)
Lemma default_sweep_frame_has_columns
  (self self' : PowerAnalysisCalculator) (df : DataFrame) :
  calculate_power_analysis self None = Ok (self', df) ->
  has_columns df = true.
Proof.
  unfold calculate_power_analysis. intros H.
  destruct (sweep_loop self (Num.range 1 31) []) as [results | e] eqn:E;
    [ | discriminate].
  cbn [bind] in H. injection H as _ <-.
  destruct (sweep_loop_inv _ _ _ _ E) as [rs [-> HF]]. cbn [app].
  change (Num.range 1 31) with (1%Z :: Num.range 2 31) in HF.
  inversion HF; subst. reflexivity.
Qed.

Lemma pick_last_In (l : list Row) (r : Row) : pick_last l = Some r -> In r l.
Proof. apply nth_error_In. Qed.

Lemma pick_middle_In (l : list Row) (r : Row) : pick_middle l = Some r -> In r l.
Proof. apply nth_error_In. Qed.

Lemma pick_first_In (l : list Row) (r : Row) : pick_first l = Some r -> In r l.
Proof. apply nth_error_In. Qed.

(** The records behind the recommendations of a successful call. *)
Lemma get_recommendations_rows
  (self self' : PowerAnalysisCalculator) (recs : Recommendations) :
  get_recommendations self = Ok (self', recs) ->
  exists df,
    results_df self' = Some df /\
    (forall q, quick_test recs = Some q ->
       exists r, In r (quick_records (rows df)) /\ q = recommendation_of r) /\
    (forall s, standard_test recs = Some s ->
       exists r, In r (standard_records (rows df)) /\ s = recommendation_of r) /\
    (forall t, sensitive_test recs = Some t ->
       exists r, pick_first (feasible_records (rows df)) = Some r /\
                 t = recommendation_of r).
Proof.
  intros H.
  destruct (get_recommendations_inv _ _ _ H) as [df [Hdf [Hc Hr]]].
  rewrite (recommend_with_columns _ Hc) in Hr. cbn zeta in Hr.
  injection Hr as <-. cbn [quick_test standard_test sensitive_test].
  fold (feasible_records (rows df)).
  fold (quick_records (rows df)). fold (standard_records (rows df)).
  exists df. split; [exact Hdf | ].
  split; [ | split].
  - intros q Hq.
    destruct (pick_last (quick_records (rows df))) as [r | ] eqn:E;
      [ | discriminate].
    injection Hq as <-. exists r. split; [now apply pick_last_In | reflexivity].
  - intros s Hs.
    destruct (pick_middle (standard_records (rows df))) as [r | ] eqn:E;
      [ | discriminate].
    injection Hs as <-. exists r. split; [now apply pick_middle_In | reflexivity].
  - intros t Ht.
    destruct (pick_first (feasible_records (rows df))) as [r | ] eqn:E;
      [ | discriminate].
    injection Ht as <-. exists r. split; reflexivity.
Qed.

End RecommendationFacts.

(** X12.  How [get_recommendations] fails.  With a frame stored it fails
    exactly when that frame has no columns (it was built from an empty
    sweep), and then with [KeyError].  Without a frame it fails exactly when
    the default sweep that it starts fails, with the error of that sweep: on
    the frame of a default sweep the selection itself never fails.  It never
    raises [IndexError]: its positional picks are always in bounds. *)
Theorem get_recommendations_fails_iff
  (self : PowerAnalysisCalculator) (e : PyError) :
  (forall df, results_df self = Some df ->
     (get_recommendations self = Raise e <->
      e = KeyError /\ has_columns df = false)) /\
  (results_df self = None ->
     (get_recommendations self = Raise e <->
      calculate_power_analysis self None = Raise e)) /\
  (get_recommendations self = Raise e -> e <> IndexError).
Proof.
  assert (Hsome : forall df, results_df self = Some df ->
            (get_recommendations self = Raise e <->
             e = KeyError /\ has_columns df = false)).
  { intros df Edf. rewrite (get_recommendations_stored _ _ Edf).
    destruct (has_columns df) eqn:Hc.
    - rewrite (recommend_with_columns _ Hc). cbn [bind]. split.
      + discriminate.
      + intros [_ C]. discriminate.
    - rewrite (recommend_without_columns _ Hc). cbn [bind]. split.
      + intros H. injection H as <-. auto.
      + intros [-> _]. reflexivity. }
  assert (Hnone : results_df self = None ->
            (get_recommendations self = Raise e <->
             calculate_power_analysis self None = Raise e)).
  { intros Edf. unfold get_recommendations. rewrite Edf.
    destruct (calculate_power_analysis self None) as [[s' df] | e'] eqn:E.
    - cbn [bind fst snd].
      rewrite (recommend_with_columns _
                 (default_sweep_frame_has_columns _ _ _ E)).
      cbn [bind]. split; discriminate.
    - cbn [bind]. split; intros H; injection H as ->; reflexivity. }
  split; [exact Hsome | ]. split; [exact Hnone | ].
  intros H ->. destruct (results_df self) as [df | ] eqn:Edf.
  - apply (Hsome df eq_refl) in H. destruct H as [C _]. discriminate.
  - apply (Hnone eq_refl) in H. unfold calculate_power_analysis in H.
    destruct (sweep_loop self (Num.range 1 31) []) as [results | e'] eqn:E;
      [discriminate | ].
    cbn [bind] in H. injection H as ->.
    destruct (sweep_loop_error _ _ _ _ E) as [m [_ Hm]].
    destruct (sweep_row_error _ _ _ Hm) as [C | [C | C]]; discriminate.
Qed.

(** X13.  Every recommendation returned stays within its bucket: it is taken
    from a record of the stored frame whose stored population split is at
    most 50, and the duration it carries is at most 7 days for the quick
    test, above 7 and at most 21 days for the standard test, and at most 30
    days for the sensitive test. *)
Theorem recommendations_within_buckets
  (self self' : PowerAnalysisCalculator) (recs : Recommendations) :
  get_recommendations self = Ok (self', recs) ->
  exists df,
    results_df self' = Some df /\
    (forall q, quick_test recs = Some q ->
       duration q <= 7 /\
       exists r, In r (rows df) /\ q = recommendation_of r /\
                 Population_Split_Percent r <= 50) /\
    (forall s, standard_test recs = Some s ->
       (7 < duration s /\ duration s <= 21) /\
       exists r, In r (rows df) /\ s = recommendation_of r /\
                 Population_Split_Percent r <= 50) /\
    (forall t, sensitive_test recs = Some t ->
       duration t <= 30 /\
       exists r, In r (rows df) /\ t = recommendation_of r /\
                 Population_Split_Percent r <= 50).
Proof.
  intros H.
  destruct (get_recommendations_rows _ _ _ H) as [df [Hdf [Hq [Hs Ht]]]].
  exists df. split; [exact Hdf | ].
  split; [ | split].
  - intros q E. destruct (Hq q E) as [r [Hin ->]].
    apply pools_spec in Hin as [Hf Hd]. apply pools_spec in Hf as [Hr [_ Hsp]].
    split; [exact Hd | eauto].
  - intros s E. destruct (Hs s E) as [r [Hin ->]].
    apply pools_spec in Hin as [Hf Hd]. apply pools_spec in Hf as [Hr [_ Hsp]].
    split; [exact Hd | eauto].
  - intros t E. destruct (Ht t E) as [r [Hin ->]].
    apply pick_first_In, pools_spec in Hin as [Hr [Hd Hsp]].
    split; [exact Hd | eauto].
Qed.

Lemma recommendations_within_buckets_witness :
  get_recommendations (set_results_df default_calculator example_frame) =
    Ok (set_results_df default_calculator example_frame,
        example_recommendations) /\
  exists df,
    results_df (set_results_df default_calculator example_frame) = Some df.
Proof.
  assert (Hrun : get_recommendations
                   (set_results_df default_calculator example_frame) =
                 Ok (set_results_df default_calculator example_frame,
                     example_recommendations))
    by (vm_compute; reflexivity).
  split; [exact Hrun | ].
  destruct (recommendations_within_buckets _ _ _ Hrun) as [df [Hdf _]].
  exists df. exact Hdf.
Defined.

Section OrderedRecommendations.



End OrderedRecommendations.



Section Presentation.







Lemma displayed_prefix (df : DataFrame) (top_n : option Z) :
  exists k, displayed df top_n = firstn k (rows df).
Proof.
  unfold displayed, pd.copy.
  destruct top_n as [n | ]; [ | exists (length (rows df)); now rewrite firstn_all].
  destruct (truthy (Some n));
    [ | exists (length (rows df)); now rewrite firstn_all].
  unfold pd.head. cbn [rows]. destruct (0 <=? n)%Z; eauto.
Qed.

Lemma sweep_stores_frame
  (self self' : PowerAnalysisCalculator) (mde_range : option (list Z))
  (df : DataFrame) :
  calculate_power_analysis self mde_range = Ok (self', df) ->
  results_df self' = Some df.
Proof.
  unfold calculate_power_analysis. intros H.
  match type of H with
  | bind (sweep_loop _ ?l _) _ = _ =>
      destruct (sweep_loop self l []); [ | discriminate]
  end.
  cbn [bind] in H. now injection H as <- <-.
Qed.

End Presentation.

(** X15.  With a frame stored, [display_results] never fails, whatever the
    frame (an empty one included), and leaves the calculator as it is.  It
    prints the five parameters of the calculator, then a prefix of the
    stored records in their order: all of them when [top_n] is absent or 0
    (0 does not mean "none"), the first [top_n] for a positive [top_n], and
    all but the last [-top_n] for a negative one. *)
Theorem display_results_rows
  (self : PowerAnalysisCalculator) (df : DataFrame) (top_n : option Z) :
  results_df self = Some df ->
  exists shown,
    display_results self top_n =
      Ok (self,
          mkDisplay (baseline_rate self) (monthly_population self)
                    (num_variants self) (power self) (alpha self) shown) /\
    (exists rest, rows df = shown ++ rest) /\
    (top_n = None \/ top_n = Some 0%Z -> shown = rows df) /\
    (forall n, top_n = Some n -> (0 < n)%Z ->
       shown = firstn (Z.to_nat n) (rows df)) /\
    (forall n, top_n = Some n -> (n < 0)%Z ->
       shown = firstn (length (rows df) - Z.to_nat (- n)) (rows df)).
Proof.
  intros Hdf. unfold display_results, display. rewrite Hdf.
  eexists. split; [reflexivity | ].
  split; [ | split; [ | split]].
  - destruct (displayed_prefix df top_n) as [k ->].
    exists (skipn k (rows df)). symmetry. apply firstn_skipn.
  - intros [-> | ->]; reflexivity.
  - intros n -> Hn. unfold displayed, truthy, pd.head, pd.copy.
    destruct (Z.eqb_spec n 0) as [E | _]; [lia | ]. cbn [negb rows].
    destruct (Z.leb_spec 0 n); [reflexivity | lia].
  - intros n -> Hn. unfold displayed, truthy, pd.head, pd.copy, pd.len.
    destruct (Z.eqb_spec n 0) as [E | _]; [lia | ]. cbn [negb rows].
    destruct (Z.leb_spec 0 n); [lia | ]. f_equal. lia.
Qed.

Lemma display_results_rows_witness :
  results_df (set_results_df default_calculator example_frame_2) =
    Some example_frame_2 /\
  exists shown,
    display_results (set_results_df default_calculator example_frame_2)
                    (Some 1%Z) =
      Ok (set_results_df default_calculator example_frame_2,
          mkDisplay (5 # 100) 100000 2 (8 # 10) (5 # 100) shown) /\
    (exists rest, rows example_frame_2 = shown ++ rest).
Proof.
  assert (Hdf : results_df (set_results_df default_calculator example_frame_2)
                = Some example_frame_2) by reflexivity.
  split; [exact Hdf | ].
  destruct (display_results_rows _ _ (Some 1%Z) Hdf) as [shown [Hs [Hp _]]].
  exists shown. split; assumption.
Defined.



(** X18.  The four methods that read the frame compute it at most once and
    then only read it.  Without a stored frame each of them does what it does
    after an explicit default sweep.  With a stored frame each leaves the
    calculator untouched, and the recommendations, the rows displayed, the
    plotted series and the frame exported depend on that frame alone: two
    calculators holding the same frame get the same ones, whatever their
    parameters (a frame that no longer matches the parameters is used all the
    same).  Of the calculator's parameters only the block printed by
    [display_results] is read. *)
Theorem frame_is_computed_once_and_only_read
  (writable : String.string -> bool) (save_path : option String.string)
  (filename : String.string)
  (self : PowerAnalysisCalculator) (top_n : option Z) :
  (results_df self = None ->
     get_recommendations self =
       (st <- calculate_power_analysis self None ;; get_recommendations (fst st)) /\
     display_results self top_n =
       (st <- calculate_power_analysis self None ;;
        display_results (fst st) top_n) /\
     plot_power_curve writable self save_path =
       (st <- calculate_power_analysis self None ;;
        plot_power_curve writable (fst st) save_path) /\
     export_to_csv writable self filename =
       (st <- calculate_power_analysis self None ;;
        export_to_csv writable (fst st) filename)) /\
  (forall df other,
     results_df self = Some df -> results_df other = Some df ->
     (value_of (get_recommendations self) = value_of (get_recommendations other) /\
      rows_shown (display_results self top_n) =
        rows_shown (display_results other top_n) /\
      value_of (plot_power_curve writable self save_path) =
        value_of (plot_power_curve writable other save_path) /\
      value_of (export_to_csv writable self filename) =
        value_of (export_to_csv writable other filename)) /\
     (forall self' recs, get_recommendations self = Ok (self', recs) ->
                         self' = self) /\
     (forall self' shown, display_results self top_n = Ok (self', shown) ->
                          self' = self) /\
     (forall self' data,
        plot_power_curve writable self save_path = Ok (self', data) ->
        self' = self) /\
     (forall self' written,
        export_to_csv writable self filename = Ok (self', written) ->
        self' = self /\ written = (filename, df))).
Proof.
  split.
  - intros Hnone.
    unfold get_recommendations, display_results, plot_power_curve,
      export_to_csv.
    rewrite Hnone.
    destruct (calculate_power_analysis self None) as [[s df] | e] eqn:E;
      [ | repeat split; reflexivity].
    cbn [bind fst snd].
    rewrite (sweep_stores_frame _ _ _ _ E). repeat split; reflexivity.
  - intros df other Hs Ho.
    unfold get_recommendations, display_results, plot_power_curve,
      export_to_csv, value_of, rows_shown.
    rewrite Hs, Ho.
    split; [ | split; [ | split; [ | split]]].
    + repeat split; try reflexivity.
      * destruct (recommend df); reflexivity.
      * destruct (plot_series df); [ | reflexivity]. cbn [bind].
        destruct (savefig writable save_path); reflexivity.
      * destruct (write_file writable filename); reflexivity.
    + intros self' recs H. destruct (recommend df); [ | discriminate].
      cbn [bind] in H. now injection H as <- _.
    + intros self' shown H. now injection H as <- _.
    + intros self' data H. destruct (plot_series df); [ | discriminate].
      cbn [bind] in H.
      destruct (savefig writable save_path); [ | discriminate].
      cbn [bind] in H. now injection H as <- _.
    + intros self' written H.
      destruct (write_file writable filename); [ | discriminate].
      cbn [bind] in H. injection H as <- <-. auto.
Qed.

(** Both branches at work: the default calculator, which holds no frame,
    and two calculators with different populations that hold the frame of
    the sweep over [[10; 20]]. *)
Lemma frame_is_computed_once_and_only_read_witness :
  (results_df default_calculator = None /\
   get_recommendations default_calculator =
     (st <- calculate_power_analysis default_calculator None ;;
      get_recommendations (fst st))) /\
  (results_df (set_results_df default_calculator example_frame_2) =
     Some example_frame_2 /\
   results_df
     (set_results_df (mkCalc (5 # 100) 500 2 (8 # 10) (5 # 100) 0 0 None)
                     example_frame_2) = Some example_frame_2 /\
   value_of (get_recommendations
               (set_results_df default_calculator example_frame_2)) =
   value_of (get_recommendations
               (set_results_df
                  (mkCalc (5 # 100) 500 2 (8 # 10) (5 # 100) 0 0 None)
                  example_frame_2))).
Proof.
  assert (Hnone : results_df default_calculator = None) by reflexivity.
  assert (Hs : results_df (set_results_df default_calculator example_frame_2)
               = Some example_frame_2) by reflexivity.
  assert (Ho : results_df
                 (set_results_df
                    (mkCalc (5 # 100) 500 2 (8 # 10) (5 # 100) 0 0 None)
                    example_frame_2) = Some example_frame_2) by reflexivity.
  split.
  - split; [exact Hnone | ].
    exact (proj1 (proj1 (frame_is_computed_once_and_only_read
                           (fun _ => true) None String.EmptyString
                           default_calculator None) Hnone)).
  - split; [exact Hs | ]. split; [exact Ho | ].
    exact (proj1 (proj1 (proj2 (frame_is_computed_once_and_only_read
                                  (fun _ => true) None String.EmptyString
                                  (set_results_df default_calculator
                                                  example_frame_2) None)
                           _ _ Hs Ho))).
Defined.

(** ** Further properties of the binary64 embedding *)

(** Python's [round(x, 2)] on a finite double: with [k] the integer nearest
    to 100 times the exact value of [x] (ties to even), the result is the
    double nearest to [k / 100], a zero when [k] is 0; [k / 100] is at most
    0.005 away from [x]. *)
Lemma round_2_decimals64 (x : Binary64.float64) (v : Q) :
  Binary64.value x = Some v ->
  exists k : Z,
    k = Num.round_half_even (v * 100) /\
    Qabs (inject_Z k / 100 - v) <= 1 # 200 /\
    (k <> 0%Z -> Binary64.round x 2 = Binary64.int_quotient k 100) /\
    (k = 0%Z -> Binary64.is_zero (Binary64.round x 2) = true).
Proof.
  intros Hv. exists (Num.round_half_even (v * 100)).
  split; [reflexivity | ].
  split; [exact (proj2 (round_2_decimals v)) | ].
  unfold Binary64.round. rewrite Hv.
  change (inject_Z (10 ^ Z.of_nat 2)) with 100.
  change (10 ^ Z.of_nat 2)%Z with 100%Z.
  destruct (Num.round_half_even (v * 100)) as [ | k | k]; split;
    try reflexivity; try discriminate; try contradiction.
  intros _. destruct x; try discriminate; reflexivity.
Qed.

(** X19.  The fields of a record, in binary64.  In every record of a sweep
    that returns: the decimal MDE is the double nearest to
    [MDE_Percent / 100]; the per-variant size is what
    [calculate_sample_size] returns for it; the total is the per-variant
    size times the number of variants, exactly (an integer product); the
    three stored metrics are Python's [round(., 2)] of the population split,
    of the duration in days and of that unrounded duration divided by 7, as
    the loop has computed them: each is rounded once, from the unrounded
    double.  The monthly population is not 0. *)
Theorem sweep_record_fields64
  (self self' : Binary64.PowerAnalysisCalculator)
  (mde_range : option (list Z)) (df : Binary64.DataFrame) (r : Binary64.Row) :
  Binary64.calculate_power_analysis self mde_range = Ok (self', df) ->
  In r (Binary64.rows df) ->
  Binary64.MDE_Decimal r = Binary64.int_quotient (Binary64.MDE_Percent r) 100 /\
  Binary64.calculate_sample_size self (Binary64.MDE_Decimal r) =
    Ok (Binary64.Sample_Size_Per_Variant r) /\
  Binary64.Total_Sample_Size r =
    (Binary64.Sample_Size_Per_Variant r * Binary64.num_variants self)%Z /\
  Binary64.Population_Split_Percent r =
    Binary64.round (unrounded_population_split self r) 2 /\
  Binary64.Duration_Days r =
    Binary64.round (unrounded_duration_days self r) 2 /\
  Binary64.Duration_Weeks r =
    Binary64.round (Binary64.div (unrounded_duration_days self r)
                                 (Binary64.of_int 7)) 2 /\
  Binary64.monthly_population self <> 0%Z /\
  (forall x v,
     Binary64.value x = Some v ->
     exists k : Z,
       k = Num.round_half_even (v * 100) /\
       Qabs (inject_Z k / 100 - v) <= 1 # 200 /\
       (k <> 0%Z -> Binary64.round x 2 = Binary64.int_quotient k 100) /\
       (k = 0%Z -> Binary64.is_zero (Binary64.round x 2) = true)).
Proof.
  intros H Hin.
  destruct (sweep_record_inv64 _ _ _ _ _ H Hin)
    as [Hp [_ [_ [Hn [Hm [Ht [Es [Ed [Ew _]]]]]]]]].
  repeat (split; [assumption | ]).
  exact round_2_decimals64.
Qed.

Lemma sweep_record_fields64_witness :
  Binary64.calculate_power_analysis (calculator64 306 2) (Some [7%Z]) =
    Ok (Binary64.set_results_df (calculator64 306 2)
          (Binary64.pd_DataFrame [boundary_row]),
        Binary64.pd_DataFrame [boundary_row]) /\
  In boundary_row (Binary64.rows (Binary64.pd_DataFrame [boundary_row])) /\
  Binary64.Duration_Days boundary_row =
    Binary64.round (unrounded_duration_days (calculator64 306 2) boundary_row)
                   2.
Proof.
  assert (Hin : In boundary_row
                   (Binary64.rows (Binary64.pd_DataFrame [boundary_row])))
    by (left; reflexivity).
  split; [exact boundary_sweep | ]. split; [exact Hin | ].
  exact (proj1 (proj2 (proj2 (proj2 (proj2
           (sweep_record_fields64 _ _ _ _ _ boundary_sweep Hin)))))).
Defined.

(** X20.  One record per MDE, in binary64: a sweep that returns has produced
    the records of its range in order (1 to 30 when no range is given), and
    the calculator returned is the old one with the new frame stored; no
    other attribute changes. *)
Theorem sweep_one_record_per_mde64
  (self self' : Binary64.PowerAnalysisCalculator)
  (mde_range : option (list Z)) (df : Binary64.DataFrame) :
  Binary64.calculate_power_analysis self mde_range = Ok (self', df) ->
  map Binary64.MDE_Percent (Binary64.rows df) =
    match mde_range with
    | Some l => l
    | None => [1; 2; 3; 4; 5; 6; 7; 8; 9; 10; 11; 12; 13; 14; 15; 16; 17; 18;
               19; 20; 21; 22; 23; 24; 25; 26; 27; 28; 29; 30]%Z
    end /\
  self' = Binary64.set_results_df self df /\
  Binary64.results_df self' = Some df.
Proof.
  intros H.
  destruct (calculate_power_analysis_rows64 _ _ _ _ H) as [-> HF].
  split; [ | split; reflexivity].
  assert (E : forall l rs,
            Forall2 (fun m r => Binary64.sweep_row self m = Ok r) l rs ->
            map Binary64.MDE_Percent rs = l).
  { induction 1 as [ | m r ms rs' Hr _ IH]; [reflexivity | ].
    cbn [map]. rewrite IH. f_equal.
    destruct (sweep_row_inv64 _ _ _ Hr) as [n [_ [_ Hrest]]].
    cbn zeta in Hrest. destruct Hrest as [_ [_ ->]]. reflexivity. }
  rewrite (E _ _ HF). destruct mde_range; reflexivity.
Qed.

Lemma sweep_one_record_per_mde64_witness :
  Binary64.calculate_power_analysis (calculator64 306 2) (Some [7%Z]) =
    Ok (Binary64.set_results_df (calculator64 306 2)
          (Binary64.pd_DataFrame [boundary_row]),
        Binary64.pd_DataFrame [boundary_row]) /\
  map Binary64.MDE_Percent
      (Binary64.rows (Binary64.pd_DataFrame [boundary_row])) = [7%Z].
Proof.
  split; [exact boundary_sweep | ].
  exact (proj1 (sweep_one_record_per_mde64 _ _ _ _ boundary_sweep)).
Defined.


Lemma sweep_loop_ignores_results_df64
  (self : Binary64.PowerAnalysisCalculator)
  (cache : option Binary64.DataFrame) (mde_range : list Z) :
  forall acc,
    Binary64.sweep_loop (with_results_df64 self cache) mde_range acc =
    Binary64.sweep_loop self mde_range acc.
Proof.
  induction mde_range as [ | m rest IH]; intros acc; [reflexivity | ].
  cbn [Binary64.sweep_loop].
  change (Binary64.sweep_row (with_results_df64 self cache) m)
    with (Binary64.sweep_row self m).
  destruct (Binary64.sweep_row self m) as [r | e]; [ | reflexivity].
  cbn [bind]. apply IH.
Qed.

(** X22.  The sweep is repeatable in binary64 too: run again with the same
    range on the calculator that a first, successful run has left, it
    returns the same frame and leaves the same calculator; and whatever
    [results_df] holds, the same range gives the same frame or the same
    error. *)
Theorem sweep_is_repeatable64
  (self : Binary64.PowerAnalysisCalculator) (mde_range : option (list Z)) :
  (forall self' df,
     Binary64.calculate_power_analysis self mde_range = Ok (self', df) ->
     Binary64.calculate_power_analysis self' mde_range = Ok (self', df)) /\
  (forall cache,
     frame_of64 (Binary64.calculate_power_analysis
                   (with_results_df64 self cache) mde_range) =
     frame_of64 (Binary64.calculate_power_analysis self mde_range)).
Proof.
  assert (Hcache : forall cache l,
            Binary64.sweep_loop (with_results_df64 self cache) l [] =
            Binary64.sweep_loop self l [])
    by (intros; apply sweep_loop_ignores_results_df64).
  split.
  - intros self' df H. unfold Binary64.calculate_power_analysis in *.
    match type of H with
    | bind (Binary64.sweep_loop _ ?l _) _ = _ =>
        destruct (Binary64.sweep_loop self l []) as [results | e] eqn:E;
          [ | discriminate]
    end.
    cbn [bind] in H. injection H as <- <-.
    change (Binary64.set_results_df self (Binary64.pd_DataFrame results))
      with (with_results_df64 self (Some (Binary64.pd_DataFrame results))).
    rewrite Hcache, E. reflexivity.
  - intros cache. unfold Binary64.calculate_power_analysis.
    rewrite Hcache.
    match goal with
    | |- context [Binary64.sweep_loop self ?l []] =>
        destruct (Binary64.sweep_loop self l [])
    end; reflexivity.
Qed.

Lemma sweep_is_repeatable64_witness :
  Binary64.calculate_power_analysis (calculator64 306 2) (Some [7%Z]) =
    Ok (Binary64.set_results_df (calculator64 306 2)
          (Binary64.pd_DataFrame [boundary_row]),
        Binary64.pd_DataFrame [boundary_row]) /\
  Binary64.calculate_power_analysis
    (Binary64.set_results_df (calculator64 306 2)
       (Binary64.pd_DataFrame [boundary_row])) (Some [7%Z]) =
    Ok (Binary64.set_results_df (calculator64 306 2)
          (Binary64.pd_DataFrame [boundary_row]),
        Binary64.pd_DataFrame [boundary_row]).
Proof.
  split; [exact boundary_sweep | ].
  exact (proj1 (sweep_is_repeatable64 (calculator64 306 2) (Some [7%Z]))
           _ _ boundary_sweep).
Defined.
